(** * youtube_dl/extractor/roosterteeth.py: the RoosterTeeth extractors

    A shallow embedding of [RoosterTeethIE] (login, session check, episode
    extraction) and [RoosterTeethSeriesIE] (the paginated season walk and the
    series playlist), with the properties of their specification.

    Python values coming out of [json.loads] are the type [json]; a Python
    [dict] is a [gmap string json].  Extractor methods run in a state and
    exception monad [M] over a [world] that holds the cookie jar, the list of
    HTTP requests made so far and the warnings reported.  The HTTP transport,
    the JSON parser and the URL helpers of the host framework are parameters
    of the development (Section variables).  Python 3 semantics is followed
    for truth values, comparison and exceptions. *)

Set Warnings "-register-all".
From Stdlib Require Import ZArith Ascii String List Lia.
From Stdlib Require Import Floats.SpecFloat.
From stdpp Require Import gmap strings list fin_maps pretty.
Import ListNotations.
Open Scope string_scope.
Open Scope list_scope.
Open Scope Z_scope.

(** ** Python values *)

(** What [json.loads] returns: [None], [bool], [int], [float], [str], [list]
    and [dict].  Python's [None] is [JNull]. *)
Inductive json : Type :=
| JNull
| JBool (b : bool)
| JInt (n : Z)
| JFloat (f : spec_float)
| JStr (s : string)
| JArr (l : list json)
| JObj (m : gmap string json).

(** Python truth value testing: [None], [False], zero, the empty string, the
    empty list and the empty dict are false, everything else is true. *)
Definition truthy (v : json) : bool :=
  match v with
  | JNull => false
  | JBool b => b
  | JInt n => negb (n =? 0)
  | JFloat (S754_zero _) => false
  | JFloat _ => true
  | JStr EmptyString => false
  | JStr _ => true
  | JArr [] => false
  | JArr _ => true
  | JObj m => negb (Nat.eqb (size m) 0)
  end.

(** Numbers, as exact values: an integer [n] is [XFin n 0], a finite float is
    its mantissa and binary exponent. *)
Inductive xnum : Type :=
| XNaN
| XInf (neg : bool)
| XFin (m e : Z).

Definition xnum_of_float (f : spec_float) : xnum :=
  match f with
  | S754_zero _ => XFin 0 0
  | S754_infinity s => XInf s
  | S754_nan => XNaN
  | S754_finite s m e => XFin (if s then Z.neg m else Z.pos m) e
  end.

(** The numeric reading of a value ([bool] is a subclass of [int]). *)
Definition as_num (v : json) : option xnum :=
  match v with
  | JInt n => Some (XFin n 0)
  | JBool b => Some (XFin (Z.b2z b) 0)
  | JFloat f => Some (xnum_of_float f)
  | _ => None
  end.

(** Exact comparison of numbers; [None] when a NaN is involved (every
    comparison with NaN is false). *)
Definition xnum_cmp (a b : xnum) : option comparison :=
  match a, b with
  | XNaN, _ | _, XNaN => None
  | XInf s1, XInf s2 =>
      Some (if s1 then (if s2 then Eq else Lt) else (if s2 then Gt else Eq))
  | XInf s, XFin _ _ => Some (if s then Lt else Gt)
  | XFin _ _, XInf s => Some (if s then Gt else Lt)
  | XFin m1 e1, XFin m2 e2 =>
      let e := Z.min e1 e2 in
      Some (Z.compare (m1 * 2 ^ (e1 - e)) (m2 * 2 ^ (e2 - e)))
  end.

(** [page == v] for an [int] [page]. *)
Definition py_eq_int (n : Z) (v : json) : bool :=
  match as_num v with
  | Some x => match xnum_cmp (XFin n 0) x with Some Eq => true | _ => false end
  | None => false
  end.

(** [v == s] for a [str] literal [s]. *)
Definition py_eq_str (v : json) (s : string) : bool :=
  match v with
  | JStr t => String.eqb t s
  | _ => false
  end.

(** [v is False]. *)
Definition py_is_False (v : json) : bool :=
  match v with
  | JBool false => true
  | _ => false
  end.

(** ** Exceptions *)

(** The [cause] attribute of an [ExtractorError]. *)
Inductive cause : Type :=
| HTTPError (code : Z) (body : string)
| ValueError (what : string)
| NetworkError.

(** [LoginRequired msg] is what [raise_login_required(msg)] raises;
    [RecursionError] is raised when the interpreter's recursion limit is
    reached. *)
Inductive exn : Type :=
| ExtractorError (msg : string) (c : option cause)
| LoginRequired (msg : string)
| KeyError (k : string)
| IndexError
| TypeError
| AttributeError
| AssertionError
| RecursionError.

Abbreviation result := (sum exn).

(** [v[k]] for a string key. *)
Definition py_getitem (v : json) (k : string) : result json :=
  match v with
  | JObj m => match m !! k with Some x => inr x | None => inl (KeyError k) end
  | _ => inl TypeError
  end.

(** [v[0]]. *)
Definition py_getitem0 (v : json) : result json :=
  match v with
  | JArr (x :: _) => inr x
  | JArr [] => inl IndexError
  | JStr (String c _) => inr (JStr (String c EmptyString))
  | JStr EmptyString => inl IndexError
  | JObj _ => inl (KeyError "0")
  | _ => inl TypeError
  end.

(** [v.get(k, d)]: only a [dict] has the method. *)
Definition py_get_default (v : json) (k : string) (d : json) : result json :=
  match v with
  | JObj m => inr (default d (m !! k))
  | _ => inl AttributeError
  end.

(** [v.get(k)]. *)
Definition py_get (v : json) (k : string) : result json :=
  py_get_default v k JNull.

Fixpoint chars (s : string) : list json :=
  match s with
  | EmptyString => []
  | String c s' => JStr (String c EmptyString) :: chars s'
  end.

(** [for x in v]: the elements of a list, the characters of a string, the
    keys of a dict (both loops of the extractor fail on the first key, which
    is a string, so the order of the keys plays no role). *)
Definition py_iter (v : json) : result (list json) :=
  match v with
  | JArr l => inr l
  | JStr s => inr (chars s)
  | JObj m => inr (JStr <$> (map_to_list m).*1)
  | _ => inl TypeError
  end.

(** [s + v] for a [str] [s]. *)
Definition py_str_add (s : string) (v : json) : result string :=
  match v with
  | JStr t => inr (s +:+ t)
  | _ => inl TypeError
  end.

(** [a < b] where [a] is a number: the order of numbers when [b] is one, a
    [TypeError] otherwise.  In [get_season_episodes_pages] the left operand
    has passed the assertion [page == se_page['page']], so it is a number. *)
Definition py_lt (a b : json) : result bool :=
  match as_num a, as_num b with
  | Some x, Some y =>
      inr (match xnum_cmp x y with Some Lt => true | _ => false end)
  | _, _ => inl TypeError
  end.

(** ** The world and the extractor monad *)

Record request : Type := mkRequest {
  req_url : string;
  req_video_id : option string;
  req_data : option (list (string * string))
}.

Record response : Type := mkResponse {
  resp_result : (string * option cause) + json;
  resp_cookies : gmap string string
}.

Record world : Type := mkWorld {
  cookies : gmap string string;
  log : list request;
  warnings : list string
}.

Definition M (A : Type) : Type := world -> result A * world.

Definition ret {A} (a : A) : M A := fun w => (inr a, w).

Definition raise {A} (e : exn) : M A := fun w => (inl e, w).

Definition bind {A B} (c : M A) (k : A -> M B) : M B :=
  fun w =>
    match c w with
    | (inr a, w') => k a w'
    | (inl e, w') => (inl e, w')
    end.

Definition lift {A} (r : result A) : M A := fun w => (r, w).

Notation "x <- c ;; k" := (bind c (fun x => k))
  (at level 100, c at next level, right associativity).
Notation "c ;;; k" := (bind c (fun _ => k))
  (at level 100, right associativity).

(** [try: c except ExtractorError as e: h e]. *)
Definition try_ExtractorError {A} (c : M A)
    (h : string -> option cause -> M A) : M A :=
  fun w =>
    match c w with
    | (inl (ExtractorError msg cs), w') => h msg cs w'
    | r => r
    end.

(** [for x in l: body x], for a body that appends to a list. *)
Fixpoint for_each {A B} (body : A -> result (list B)) (l : list A)
    : result (list B) :=
  match l with
  | [] => inr []
  | x :: l' =>
      match body x with
      | inl e => inl e
      | inr ys =>
          match for_each body l' with
          | inl e => inl e
          | inr zs => inr (ys ++ zs)
          end
      end
  end.

(** Modelled from the spec: [report_warning] of the host is missing.  The
    warning is non-fatal: it is recorded and the extraction goes on. *)
Definition report_warning (msg : string) : M unit :=
  fun w => (inr tt, mkWorld (cookies w) (log w) (warnings w ++ [msg])).

(** Sequencing of pure steps that may raise. *)
Definition rbind {A B} (r : result A) (k : A -> result B) : result B :=
  match r with
  | inr a => k a
  | inl e => inl e
  end.

Notation "x <~ r ;; k" := (rbind r (fun x => k))
  (at level 100, r at next level, right associativity).

(** A step returned normally (it did not raise). *)
Definition returns {A} (r : result A) : bool :=
  match r with
  | inr _ => true
  | inl _ => false
  end.

(** The monadic loop [for x in l: acc.extend(body x)]. *)
Fixpoint for_eachM {A B} (body : A -> M (list B)) (l : list A) : M (list B) :=
  match l with
  | [] => ret []
  | x :: l' =>
      ys <- body x ;;
      zs <- for_eachM body l' ;;
      ret (ys ++ zs)
  end.

(** ** The host framework: [InfoExtractor]

    [common.py] and [utils.py] are not among the sources.  The transport and
    the JSON parser are parameters; the helpers the extractor calls are
    modelled on top of them. *)
Module InfoExtractor.
Section Framework.

(** The backend as the HTTP layer presents it: what a request returns in a
    given world, and the cookies (for the episode API URL) it sets. *)
Variable server : world -> request -> response.

(** [json.loads]: the parsed value, or the message of the [ValueError]. *)
Variable json_loads : string -> string + json.

(** Modelled from the spec: [_download_json(url, video_id, data=data)] of
    [common.py] is missing.  It is the shared HTTP/JSON fetch: one request,
    recorded in the log; the transport stores the cookies of the response; a
    failure is an [ExtractorError] carrying its cause (the status code and
    the body, for an HTTP error). *)
Definition _download_json (url : string) (video_id : option string)
    (data : option (list (string * string))) : M json :=
  fun w =>
    let rq := mkRequest url video_id data in
    let rs := server w rq in
    let w' := mkWorld (resp_cookies rs ∪ cookies w) (log w ++ [rq]) (warnings w) in
    match resp_result rs with
    | inr j => (inr j, w')
    | inl (msg, c) => (inl (ExtractorError msg c), w')
    end.

(** Modelled from the spec: [_parse_json(json_string, video_id, fatal)] of
    [common.py] is missing.  The body is parsed; with [fatal=False] (the
    login path, section 4.1) a parse failure is reported as a warning and the
    result is [None]; by default the failure is an [ExtractorError] whose
    cause is the parser's [ValueError]. *)
Definition _parse_json (json_string : string) (video_id : option string)
    (fatal : bool) : M json :=
  match json_loads json_string with
  | inr v => ret v
  | inl ve =>
      let errmsg := default "None" video_id +:+ ": Failed to parse JSON " in
      if fatal then raise (ExtractorError errmsg (Some (ValueError ve)))
      else (report_warning (errmsg +:+ ve) ;;; ret JNull)
  end.

(** Modelled from the spec: [_get_cookies(url)] of [common.py] is missing.
    The session token is an ambient cookie; for the episode API URL the
    cookies are the jar of the world. *)
Definition _get_cookies : M (gmap string string) :=
  fun w => (inr (cookies w), w).

(** Modelled from the spec: [raise_login_required(msg)] of [common.py] is
    missing.  It fails with the distinct members-only error, which carries
    the message. *)
Definition raise_login_required {A} (msg : string) : M A :=
  raise (LoginRequired msg).

End Framework.

(** Decimal numerals, for a number given as text. *)
Definition digit_of (c : ascii) : option Z :=
  let n := Z.of_nat (nat_of_ascii c) in
  if (48 <=? n) && (n <=? 57) then Some (n - 48) else None.

Fixpoint digits_value (acc : Z) (s : string) : option Z :=
  match s with
  | EmptyString => Some acc
  | String c s' =>
      match digit_of c with
      | Some d => digits_value (10 * acc + d) s'
      | None => None
      end
  end.

Definition int_of_string (s : string) : option Z :=
  match s with
  | EmptyString => None
  | String "-" (String c s') => Z.opp <$> digits_value 0 (String c s')
  | String "+" (String c s') => digits_value 0 (String c s')
  | _ => digits_value 0 s
  end.

(** Modelled from the spec: [int_or_none] of [utils.py] is missing.  Section
    4.2 step 6: a missing ([None]) or non-numeric value yields [None], never
    a failure; a number yields its integer value (a float is truncated
    towards zero, a string of decimal digits is read as a number). *)
Definition int_or_none (v : json) : option Z :=
  match v with
  | JInt n => Some n
  | JBool b => Some (Z.b2z b)
  | JFloat (S754_zero _) => Some 0
  | JFloat (S754_finite s m e) =>
      let q := if 0 <=? e then Z.pos m * 2 ^ e else Z.pos m / 2 ^ (- e) in
      Some (if s then - q else q)
  | JStr s => int_of_string s
  | _ => None
  end.

(** The values [int_or_none] reads as a number. *)
Definition numeric (v : json) : bool :=
  match v with
  | JInt _ | JBool _ => true
  | JFloat (S754_zero _) | JFloat (S754_finite _ _ _) => true
  | JStr s => bool_decide (is_Some (int_of_string s))
  | _ => false
  end.

(** Modelled from the spec: [str_or_none] of [utils.py] is missing; [None]
    stays [None], any other value is turned into text by [compat_str]. *)
Definition str_or_none (compat_str : json -> string) (v : json) : option string :=
  match v with
  | JNull => None
  | _ => Some (compat_str v)
  end.

End InfoExtractor.

(** ** [class RoosterTeethIE(InfoExtractor)] *)
Module RoosterTeethIE.
Import InfoExtractor.

Definition _VALID_URL : string :=
  "https?://(?:.+?\.)?roosterteeth\.com/(?:episode|watch)/(?P<id>[^/?#&]+)".

Definition _EPISODE_BASE_URL : string :=
  "https://svod-be.roosterteeth.com/api/v1/episodes/".

Definition client_id : string :=
  "4338d2b4bdc8db1239360f28e72f0d9ddb1fd01e7a38fbb07b4b1f4ba4564cc5".

Record thumbnail : Type := mkThumbnail {
  thumb_id : string;
  thumb_url : json
}.

(** The dictionary [_real_extract] returns.  A field filled by [.get] holds a
    Python value ([JNull] for [None]). *)
Record info_dict {format : Type} : Type := mkInfo {
  id : string;
  display_id : string;
  title : json;
  description : json;
  thumbnails : list thumbnail;
  series : json;
  season_number : option Z;
  season_id : json;
  episode : json;
  episode_number : option Z;
  episode_id : option string;
  formats : list format;
  channel_id : json;
  duration : option Z
}.
Arguments info_dict : clear implicits.

Section Extractor.

Variable server : world -> request -> response.
Variable json_loads : string -> string + json.

(** [_get_login_info()]: the configured (username, password), [None] when no
    credential is configured (the username is [None]). *)
Variable _get_login_info : option (string * string).

(** [_match_id(url)] against a [_VALID_URL]. *)
Variable _match_id : string -> string -> string.

(** The stream variants: [_extract_m3u8_formats] and [_sort_formats] of the
    host, and [compat_str]. *)
Variable format : Type.
Variable _extract_m3u8_formats : json -> string -> M (list format).
Variable _sort_formats : list format -> M (list format).
Variable compat_str : json -> string.

Abbreviation _download_json := (_download_json server).
Abbreviation _parse_json := (_parse_json json_loads).

(** [resp.get('extra_info') or resp.get('error_description') or resp.get('error')] *)
Definition login_error_field (resp : json) : result json :=
  a <~ py_get resp "extra_info" ;;
  if truthy a then inr a else
  b <~ py_get resp "error_description" ;;
  if truthy b then inr b else
  py_get resp "error".

(** The [except ExtractorError as e] block of [_login]. *)
Definition login_failed (c : option cause) : M unit :=
  let msg := "Unable to login" in
  msg <- match c with
         | Some (HTTPError code body) =>
             if code =? 401 then
               resp <- _parse_json body None false ;;
               if truthy resp then
                 error <- lift (login_error_field resp) ;;
                 if truthy error then lift (py_str_add (msg +:+ ": ") error)
                 else ret msg
               else ret msg
             else ret msg
         | _ => ret msg
         end ;;
  report_warning msg.

Definition _login : M unit :=
  match _get_login_info with
  | None => ret tt
  | Some (username, password) =>
      try_ExtractorError
        (_download_json "https://auth.roosterteeth.com/oauth/token" None
           (Some [("client_id", client_id); ("grant_type", "password");
                  ("username", username); ("password", password)]) ;;;
         ret tt)
        (fun _ c => login_failed c)
  end.

Definition _real_initialize : M unit :=
  jar <- _get_cookies ;;
  match jar !! "rt_access_token" with
  | Some _ => ret tt
  | None => _login
  end.

(** The [except ExtractorError as e] block of [_real_extract]. *)
Definition manifest_failed {A} (display_id msg : string) (c : option cause) : M A :=
  match c with
  | Some (HTTPError code body) =>
      if code =? 403 then
        r <- _parse_json body (Some display_id) true ;;
        a <- lift (py_get r "access") ;;
        if py_is_False a then
          raise_login_required (display_id +:+ " is only available for FIRST members")
        else raise (ExtractorError msg c)
      else raise (ExtractorError msg c)
  | _ => raise (ExtractorError msg c)
  end.

(** The [try] statement of [_real_extract]: the manifest URL. *)
Definition download_m3u8_url (display_id : string) : M json :=
  let api_episode_url := _EPISODE_BASE_URL +:+ display_id in
  try_ExtractorError
    (j <- _download_json (api_episode_url +:+ "/videos") (Some display_id) None ;;
     lift (d <~ py_getitem j "data" ;;
           d0 <~ py_getitem0 d ;;
           a <~ py_getitem d0 "attributes" ;;
           py_getitem a "url"))
    (manifest_failed display_id).

Definition thumbnail_tags : list string := ["thumb"; "small"; "medium"; "large"].

(** The body of [for k in ('thumb', 'small', 'medium', 'large')]. *)
Definition tag_thumbnails (img_attributes : json) (k : string)
    : result (list thumbnail) :=
  img_url <~ py_get img_attributes k ;;
  inr (if truthy img_url then [mkThumbnail k img_url] else []).

(** The body of [for image in ...]. *)
Definition image_thumbnails (image : json) : result (list thumbnail) :=
  t <~ py_get image "type" ;;
  if py_eq_str t "episode_image" then
    a <~ py_get image "attributes" ;;
    let img_attributes := if truthy a then a else JObj ∅ in
    for_each (tag_thumbnails img_attributes) thumbnail_tags
  else inr [].

Definition episode_thumbnails (episode : json) : result (list thumbnail) :=
  included <~ py_get_default episode "included" (JObj ∅) ;;
  images <~ py_get_default included "images" (JArr []) ;;
  l <~ py_iter images ;;
  for_each image_thumbnails l.

(** [_real_extract] from [attributes = episode['attributes']] to the
    returned dictionary. *)
Definition episode_info (display_id : string) (formats : list format)
    (episode : json) : result (info_dict format) :=
  attributes <~ py_getitem episode "attributes" ;;
  t <~ py_get attributes "title" ;;
  title <~ (if truthy t then inr t else py_getitem attributes "display_title") ;;
  i <~ py_getitem episode "id" ;;
  let video_id := compat_str i in
  thumbnails <~ episode_thumbnails episode ;;
  d <~ py_get attributes "description" ;;
  description <~ (if truthy d then inr d else py_get attributes "caption") ;;
  show_title <~ py_get attributes "show_title" ;;
  season_number <~ py_get attributes "season_number" ;;
  season_id <~ py_get attributes "season_id" ;;
  number <~ py_get attributes "number" ;;
  uuid <~ py_get episode "uuid" ;;
  channel_id <~ py_get attributes "channel_id" ;;
  length <~ py_get attributes "length" ;;
  inr {| id := video_id;
         display_id := display_id;
         title := title;
         description := description;
         thumbnails := thumbnails;
         series := show_title;
         season_number := int_or_none season_number;
         season_id := season_id;
         episode := title;
         episode_number := int_or_none number;
         episode_id := str_or_none compat_str uuid;
         formats := formats;
         channel_id := channel_id;
         duration := int_or_none length |}.

(** [_real_extract] from the manifest to [episode = ...['data'][0]]: the
    sorted formats and the episode. *)
Definition download_episode (display_id : string) : M (list format * json) :=
  let api_episode_url := _EPISODE_BASE_URL +:+ display_id in
  m3u8_url <- download_m3u8_url display_id ;;
  formats <- _extract_m3u8_formats m3u8_url display_id ;;
  formats <- _sort_formats formats ;;
  j <- _download_json api_episode_url (Some display_id) None ;;
  episode <- lift (d <~ py_getitem j "data" ;; py_getitem0 d) ;;
  ret (formats, episode).

Definition _real_extract (url : string) : M (info_dict format) :=
  let display_id := _match_id _VALID_URL url in
  p <- download_episode display_id ;;
  lift (episode_info display_id p.1 p.2).

End Extractor.
End RoosterTeethIE.

(** ** [class RoosterTeethSeriesIE(RoosterTeethIE)] *)
Module RoosterTeethSeriesIE.
Import InfoExtractor.

Definition _VALID_URL : string := "https://roosterteeth.com/series/(?P<id>[\w\d\-]+)".

Definition domain : string := "https://roosterteeth.com".
Definition api_domain : string := "https://svod-be.roosterteeth.com".

(** The six components [urlparse] returns. *)
Record ParseResult : Type := mkParseResult {
  scheme : string;
  netloc : string;
  path : string;
  params : string;
  query : string;
  fragment : string
}.

(** [parsed_url._replace(query=q)] *)
Definition replace_query (u : ParseResult) (q : string) : ParseResult :=
  mkParseResult (scheme u) (netloc u) (path u) (params u) q (fragment u).

(** [qs[key] = value] on a dict in insertion order: an existing key keeps its
    place, a new key goes last. *)
Fixpoint dict_set {V} (qs : list (string * V)) (key : string) (value : V)
    : list (string * V) :=
  match qs with
  | [] => [(key, value)]
  | (k, v) :: qs' =>
      if String.eqb k key then (k, value) :: qs'
      else (k, v) :: dict_set qs' key value
  end.

(** The playlist [_real_extract] returns. *)
Record playlist {url_ref : Type} : Type := mkPlaylist {
  _type : string;
  id : string;
  title : json;
  entries : list url_ref
}.
Arguments playlist : clear implicits.

Section Extractor.

Variable server : world -> request -> response.
Variable _match_id : string -> string -> string.

(** [compat_urlparse.urlparse], [parse_qs], [urlunparse] and
    [compat_urllib_parse_urlencode(qs, True)]. *)
Variable urlparse : string -> ParseResult.
Variable parse_qs : string -> list (string * list string).
Variable urlencode : list (string * list string) -> string.
Variable urlunparse : ParseResult -> string.

(** [url_result(entry)]: the reference the host resolves later. *)
Variable url_ref : Type.
Variable url_result : string -> url_ref.

Abbreviation _download_json := (_download_json server).

(** The value is an [int] at both call sites; [urlencode] writes it in
    decimal. *)
Definition _set_query_string (url key : string) (value : Z) : string :=
  let parsed_url := urlparse url in
  let qs := parse_qs (query parsed_url) in
  let qs := dict_set qs key [pretty value] in
  urlunparse (replace_query parsed_url (urlencode qs)).

Definition _add_per_page (url : string) (count : option Z) : string :=
  let count := default 1000 count in
  _set_query_string url "per_page" count.

(** The URL requested for a page of a season. *)
Definition page_url (episode_link : string) (page : Z) : string :=
  _add_per_page (_set_query_string episode_link "page" page) None.

(** ["_".join([season_slug, str(page)])] *)
Definition page_video_id (season_slug : json) (page : Z) : result string :=
  match season_slug with
  | JStr s => inr (s +:+ "_" +:+ pretty page)
  | _ => inl TypeError
  end.

(** [entries.append(self.domain + link['canonical_links']['self'])] *)
Definition link_entry (link : json) : result (list string) :=
  c <~ py_getitem link "canonical_links" ;;
  s <~ py_getitem c "self" ;;
  e <~ py_str_add domain s ;;
  inr [e].

(** One activation of [get_season_episodes_pages], up to the test
    [se_page['page'] < se_page['total_pages']]: the entries of the page and
    whether the walk goes on. *)
Definition season_page (episode_link : string) (season_slug : json) (page : Z)
    : M (list string * bool) :=
  vid <- lift (page_video_id season_slug page) ;;
  se_page <- _download_json (page_url episode_link page) (Some vid) None ;;
  p <- lift (py_getitem se_page "page") ;;
  (if py_eq_int page p then ret tt else raise AssertionError) ;;;
  data <- lift (py_getitem se_page "data") ;;
  links <- lift (py_iter data) ;;
  entries <- lift (for_each link_entry links) ;;
  p' <- lift (py_getitem se_page "page") ;;
  tp <- lift (py_getitem se_page "total_pages") ;;
  more <- lift (py_lt p' tp) ;;
  ret (entries, more).

(** [fuel] is the depth of recursion the interpreter still allows. *)
Fixpoint get_season_episodes_pages (fuel : nat) (episode_link : string)
    (season_slug : json) (page : option Z) : M (list string) :=
  match fuel with
  | O => raise RecursionError
  | S fuel' =>
      let page := default 1 page in
      r <- season_page episode_link season_slug page ;;
      if r.2 then
        rest <- get_season_episodes_pages fuel' episode_link season_slug
                  (Some (page + 1)) ;;
        ret (r.1 ++ rest)
      else ret r.1
  end.

(** The body of [for season in seasons['data']]. *)
Definition season_entries (fuel : nat) (season : json) : M (list string) :=
  ep_link <- lift (l <~ py_getitem season "links" ;;
                   e <~ py_getitem l "episodes" ;;
                   py_str_add api_domain e) ;;
  slug <- lift (a <~ py_getitem season "attributes" ;; py_getitem a "slug") ;;
  get_season_episodes_pages fuel ep_link slug None.

Definition _real_extract (fuel : nat) (url : string) : M (playlist url_ref) :=
  let show_id := _match_id _VALID_URL url in
  series <- _download_json (api_domain +:+ "/api/v1/shows/" +:+ show_id)
              (Some show_id) None ;;
  data0 <- lift (d <~ py_getitem series "data" ;; py_getitem0 d) ;;
  seasons_url <- lift (l <~ py_getitem data0 "links" ;;
                       s <~ py_getitem l "seasons" ;;
                       py_str_add api_domain s) ;;
  seasons <- _download_json seasons_url (Some (show_id +:+ "_seasons")) None ;;
  sd <- lift (py_getitem seasons "data") ;;
  sl <- lift (py_iter sd) ;;
  entries <- for_eachM (season_entries fuel) sl ;;
  let videos := url_result <$> entries in
  title <- lift (a <~ py_getitem data0 "attributes" ;; py_getitem a "title") ;;
  ret (mkPlaylist url_ref "playlist" show_id title videos).

End Extractor.
End RoosterTeethSeriesIE.

(** * Properties *)

(** Unfolding of the monad. *)
Ltac run :=
  repeat (unfold bind, ret, raise, lift, rbind, try_ExtractorError,
                 report_warning, InfoExtractor._get_cookies,
                 InfoExtractor.raise_login_required; simpl).

(** ** The authenticator *)
Module Authenticator.
Import InfoExtractor RoosterTeethIE.

(** The password-grant request [_login] sends. *)
Definition login_request (username password : string) : request :=
  mkRequest "https://auth.roosterteeth.com/oauth/token" None
    (Some [("client_id", client_id); ("grant_type", "password");
           ("username", username); ("password", password)]).

(** The session token is present in the cookie jar. *)
Definition has_token (w : world) : Prop :=
  is_Some (cookies w !! "rt_access_token").

(** The world after a request [rq] was sent in [w]. *)
Definition after_request (server : world -> request -> response) (w : world)
    (rq : request) : world :=
  mkWorld (resp_cookies (server w rq) ∪ cookies w) (log w ++ [rq]) (warnings w).

(** The exchange succeeds: the token endpoint answers and the answer sets
    the session cookie. *)
Definition login_succeeds (server : world -> request -> response) (w : world)
    (username password : string) : Prop :=
  (exists j, resp_result (server w (login_request username password)) = inr j) /\
  is_Some (resp_cookies (server w (login_request username password))
             !! "rt_access_token").


(** The message of the error body, in the words of the specification: the
    fields [extra_info], [error_description] and [error] are checked in this
    order and the first one that holds a (non-empty) value is taken. *)
Definition message_fields : list string :=
  ["extra_info"; "error_description"; "error"].

Definition selected_message (m : gmap string json) : option json :=
  head (List.filter truthy ((fun k => default JNull (m !! k)) <$> message_fields)).

Section WithHost.

Variable server : world -> request -> response.
Variable json_loads : string -> string + json.
Variable _get_login_info : option (string * string).

Abbreviation _login := (_login server json_loads _get_login_info).
Abbreviation _real_initialize := (_real_initialize server json_loads _get_login_info).

Lemma real_initialize_with_token (w : world) :
  has_token w -> _real_initialize w = (inr tt, w).
Proof.
  intros [v Hv]. unfold RoosterTeethIE._real_initialize. run. now rewrite Hv.
Qed.

Lemma login_without_credential (w : world) :
  _get_login_info = None -> _login w = (inr tt, w).
Proof. intros H. unfold RoosterTeethIE._login. now rewrite H. Qed.

Lemma real_initialize_after_login (w : world) (username password : string) :
  _get_login_info = Some (username, password) ->
  ~ has_token w ->
  login_succeeds server w username password ->
  _real_initialize w = (inr tt, after_request server w (login_request username password))
  /\ has_token (after_request server w (login_request username password)).
Proof.
  intros Hc Hn [[j Hj] [t Ht]].
  assert (Hnone : cookies w !! "rt_access_token" = None).
  { destruct (cookies w !! "rt_access_token") eqn:E; [|done].
    exfalso. apply Hn. unfold has_token. rewrite E. by eexists. }
  split.
  - unfold RoosterTeethIE._real_initialize. run. rewrite Hnone.
    unfold RoosterTeethIE._login. rewrite Hc. run.
    unfold InfoExtractor._download_json, login_request in *. simpl.
    now rewrite Hj.
  - exists t. unfold after_request. simpl.
    apply lookup_union_Some_l. exact Ht.
Qed.

(** C6: [_real_initialize] makes no request and returns normally (the world
    is left as it was) when the session cookie is present, and when no
    credential is configured; after a first call whose login succeeded, a
    second call makes no further request. *)
Theorem ensure_session_idempotent :
  (forall w, has_token w \/ _get_login_info = None ->
     _real_initialize w = (inr tt, w)) /\
  (forall w username password,
     _get_login_info = Some (username, password) ->
     ~ has_token w ->
     login_succeeds server w username password ->
     exists w1,
       _real_initialize w = (inr tt, w1) /\
       log w1 = log w ++ [login_request username password] /\
       _real_initialize w1 = (inr tt, w1)).
Proof.
  split.
  - intros w [Ht | Hc].
    + by apply real_initialize_with_token.
    + unfold RoosterTeethIE._real_initialize. run.
      destruct (cookies w !! "rt_access_token"); [done|].
      by apply login_without_credential.
  - intros w u p Hc Hn Hs.
    destruct (real_initialize_after_login w u p Hc Hn Hs) as [H1 H2].
    eexists. split; [exact H1|]. split; [done|].
    by apply real_initialize_with_token.
Qed.

Lemma login_error_field_selected (m : gmap string json) :
  exists v, login_error_field (JObj m) = inr v /\
    (if truthy v then selected_message m = Some v else selected_message m = None).
Proof.
  unfold login_error_field, selected_message, message_fields. simpl.
  destruct (truthy (default JNull (m !! "extra_info"))) eqn:E1.
  { eexists. split; [reflexivity|]. by rewrite E1. }
  destruct (truthy (default JNull (m !! "error_description"))) eqn:E2.
  { eexists. split; [reflexivity|]. by rewrite E2. }
  eexists. split; [reflexivity|].
  by destruct (truthy (default JNull (m !! "error"))) eqn:E3.
Qed.




End WithHost.
End Authenticator.

(** ** The episode resolver *)
Module EpisodeResolver.
Import InfoExtractor RoosterTeethIE.
Import Authenticator.

(** The request for the manifest of an episode. *)
Definition manifest_request (display_id : string) : request :=
  mkRequest ((_EPISODE_BASE_URL +:+ display_id) +:+ "/videos") (Some display_id) None.

(** The message of the members-only error. *)
Definition members_only (display_id : string) : string :=
  display_id +:+ " is only available for FIRST members".

(** [a.get(k)] on a dict [a]. *)
Definition attr (a : gmap string json) (k : string) : json :=
  default JNull (a !! k).

(** The entries of [included.images] of an episode. *)
Definition episode_images (episode : json) : result (list json) :=
  included <~ py_get_default episode "included" (JObj ∅) ;;
  images <~ py_get_default included "images" (JArr []) ;;
  py_iter images.

(** The thumbnails in the words of the specification: only the images whose
    [type] is "episode_image" count; for each of them the tags are visited
    in their fixed order, and a tag gives a thumbnail when the image's
    attributes hold a non-empty value for it. *)
Definition is_episode_image (image : json) : bool :=
  match image with
  | JObj m =>
      match m !! "type" with
      | Some (JStr t) => String.eqb t "episode_image"
      | _ => false
      end
  | _ => false
  end.

Definition image_url (image : json) (tag : string) : option json :=
  match image with
  | JObj m =>
      match m !! "attributes" with
      | Some (JObj a) =>
          match a !! tag with
          | Some u => if truthy u then Some u else None
          | None => None
          end
      | _ => None
      end
  | _ => None
  end.

Definition tag_thumbnail (image : json) (tag : string) : list thumbnail :=
  match image_url image tag with
  | Some u => [mkThumbnail tag u]
  | None => []
  end.

Definition spec_thumbnails (images : list json) : list thumbnail :=
  flat_map (fun image => flat_map (tag_thumbnail image) thumbnail_tags)
    (List.filter is_episode_image images).

(** The attributes [int_or_none] is applied to. *)
Definition numeric_keys : list string := ["season_number"; "number"; "length"].

(** A title or description that is absent, or present with a false value
    (the empty string, [None]). *)
Definition absent_or_empty (a : gmap string json) (k : string) : Prop :=
  a !! k = None \/ exists t, a !! k = Some t /\ truthy t = false.

(** An attribute that is missing, or holds a value that is not a number. *)
Definition missing_or_not_numeric (a : gmap string json) (k : string) : Prop :=
  a !! k = None \/ exists v, a !! k = Some v /\ numeric v = false.


Section WithHost.

Variable server : world -> request -> response.
Variable json_loads : string -> string + json.
Variable _match_id : string -> string -> string.
Variable format : Type.
Variable _extract_m3u8_formats : json -> string -> M (list format).
Variable _sort_formats : list format -> M (list format).
Variable compat_str : json -> string.

Abbreviation download_m3u8_url := (download_m3u8_url server json_loads).
Abbreviation download_episode :=
  (download_episode server json_loads format _extract_m3u8_formats _sort_formats).
Abbreviation episode_info := (episode_info format compat_str).
Abbreviation _real_extract :=
  (_real_extract server json_loads _match_id format _extract_m3u8_formats
     _sort_formats compat_str).

Lemma real_extract_manifest_error (url : string) (w w1 : world) (e : exn) :
  download_m3u8_url (_match_id _VALID_URL url) w = (inl e, w1) ->
  _real_extract url w = (inl e, w1).
Proof.
  intros H. unfold RoosterTeethIE._real_extract, RoosterTeethIE.download_episode.
  unfold bind at 1. unfold bind at 1. now rewrite H.
Qed.

Lemma manifest_failure_handled (d : string) (w : world) (msg : string)
    (c : option cause) :
  resp_result (server w (manifest_request d)) = inl (msg, c) ->
  download_m3u8_url d w =
    manifest_failed json_loads d msg c (after_request server w (manifest_request d)).
Proof.
  intros H. unfold RoosterTeethIE.download_m3u8_url. run.
  unfold InfoExtractor._download_json, manifest_request in *. simpl.
  now rewrite H.
Qed.

(** C1 (amended): when the manifest request fails, a failure that is not an
    HTTP 403 is raised again as it is; for an HTTP 403 whose body parses to
    an object, the members-only error with the message "display_id is only
    available for FIRST members" is raised exactly when the body has
    [access] equal to [false], and otherwise the original error is raised
    again as it is.  Nothing else is requested. *)
Theorem manifest_forbidden (url : string) (w : world) (msg : string)
    (c : option cause) :
  let d := _match_id _VALID_URL url in
  let w1 := after_request server w (manifest_request d) in
  resp_result (server w (manifest_request d)) = inl (msg, c) ->
  ((forall body, c <> Some (HTTPError 403 body)) ->
     _real_extract url w = (inl (ExtractorError msg c), w1)) /\
  (forall body m, c = Some (HTTPError 403 body) ->
     json_loads body = inr (JObj m) ->
     (m !! "access" = Some (JBool false) ->
        _real_extract url w = (inl (LoginRequired (members_only d)), w1)) /\
     (m !! "access" <> Some (JBool false) ->
        _real_extract url w = (inl (ExtractorError msg c), w1))).
Proof.
  intros d w1 Hr. split.
  - intros Hne. apply real_extract_manifest_error. fold d.
    rewrite (manifest_failure_handled d w msg c Hr). fold w1.
    unfold manifest_failed. run.
    destruct c as [[code body| |]|]; try reflexivity.
    destruct (code =? 403) eqn:E; [|reflexivity].
    apply Z.eqb_eq in E. subst code. by destruct (Hne body).
  - intros body m Hc Hl. subst c. split; intros Ha;
      apply real_extract_manifest_error; fold d;
      rewrite (manifest_failure_handled d w msg _ Hr); fold w1;
      unfold manifest_failed, InfoExtractor._parse_json; rewrite Hl; run.
    + now rewrite Ha.
    + destruct (m !! "access") as [[| [|] | | | | |]|]; try reflexivity.
      by destruct Ha.
Qed.


Lemma real_extract_returns (url : string) (w w' : world) (r : info_dict format) :
  _real_extract url w = (inr r, w') ->
  exists formats episode,
    download_episode (_match_id _VALID_URL url) w = (inr (formats, episode), w') /\
    episode_info (_match_id _VALID_URL url) formats episode = inr r.
Proof.
  unfold RoosterTeethIE._real_extract. unfold bind at 1.
  destruct (download_episode _ w) as [[e|[formats episode]] w1]; [discriminate|].
  unfold lift. simpl. intros H. injection H as H1 H2. subst w1.
  by exists formats, episode.
Qed.

Lemma empty_dict_lookup (a : gmap string json) (k : string) :
  truthy (JObj a) = false -> a !! k = None.
Proof.
  simpl. destruct (size a) eqn:E; [|done]. intros _.
  apply map_size_empty_iff in E. by subst a.
Qed.

Lemma tags_of_dict (a : gmap string json) :
  for_each (tag_thumbnails (JObj a)) thumbnail_tags =
  inr (flat_map (tag_thumbnail (JObj {["attributes" := JObj a]})) thumbnail_tags).
Proof.
  unfold tag_thumbnail, image_url, thumbnail_tags.
  rewrite lookup_singleton_eq. simpl. unfold tag_thumbnails, rbind. simpl.
  repeat f_equal;
    match goal with
    | |- context [a !! ?k] => destruct (a !! k) as [u|]; simpl; [|done]
    end; by destruct (truthy u).
Qed.

Lemma tags_of_other (v : json) :
  (forall a, v <> JObj a) ->
  for_each (tag_thumbnails v) thumbnail_tags = inl AttributeError.
Proof. intros H. destruct v; try reflexivity. by destruct (H m). Qed.

Lemma tag_thumbnail_attributes (m : gmap string json) (a : gmap string json) :
  m !! "attributes" = Some (JObj a) ->
  flat_map (tag_thumbnail (JObj m)) thumbnail_tags =
  flat_map (tag_thumbnail (JObj {["attributes" := JObj a]})) thumbnail_tags.
Proof.
  intros H. unfold tag_thumbnail, image_url.
  by rewrite H, lookup_singleton_eq.
Qed.

Lemma tag_thumbnail_no_attributes (m : gmap string json) :
  truthy (attr m "attributes") = false ->
  flat_map (tag_thumbnail (JObj m)) thumbnail_tags = [].
Proof.
  unfold attr, tag_thumbnail, image_url. intros H.
  destruct (m !! "attributes") as [[| | | | | |a]|]; try reflexivity.
  change (truthy (JObj a) = false) in H.
  unfold thumbnail_tags. simpl. by rewrite !(empty_dict_lookup a).
Qed.

Lemma is_episode_image_eq (m : gmap string json) :
  py_eq_str (default JNull (m !! "type")) "episode_image" = is_episode_image (JObj m).
Proof. unfold is_episode_image. by destruct (m !! "type") as [[]|]. Qed.

Lemma image_thumbnails_dict (m : gmap string json) :
  image_thumbnails (JObj m) =
  if is_episode_image (JObj m) then
    for_each
      (tag_thumbnails (if truthy (attr m "attributes") then attr m "attributes"
                       else JObj ∅))
      thumbnail_tags
  else inr [].
Proof.
  unfold image_thumbnails, py_get, py_get_default, rbind.
  by rewrite is_episode_image_eq.
Qed.

Lemma image_thumbnails_spec (image : json) (ths : list thumbnail) :
  image_thumbnails image = inr ths ->
  ths = if is_episode_image image then flat_map (tag_thumbnail image) thumbnail_tags
        else [].
Proof.
  destruct image as [| | | | |l|m]; try discriminate.
  rewrite image_thumbnails_dict.
  destruct (is_episode_image (JObj m)); [|congruence].
  destruct (truthy (attr m "attributes")) eqn:Et.
  - unfold attr in *.
    destruct (m !! "attributes") as [[| | | | | |a]|] eqn:Ea;
      try (rewrite tags_of_other by (simpl; congruence); discriminate).
    change (default JNull (Some (JObj a))) with (JObj a).
    rewrite tags_of_dict, (tag_thumbnail_attributes m a Ea). congruence.
  - rewrite (tag_thumbnail_no_attributes m Et).
    rewrite (tags_of_dict ∅). unfold tag_thumbnail, image_url, thumbnail_tags.
    rewrite lookup_singleton_eq. simpl. rewrite !lookup_empty. simpl.
    congruence.
Qed.

Lemma for_each_image_thumbnails (images : list json) (ths : list thumbnail) :
  for_each image_thumbnails images = inr ths -> ths = spec_thumbnails images.
Proof.
  revert ths. induction images as [|image images IH]; intros ths; simpl.
  - unfold spec_thumbnails. simpl. congruence.
  - destruct (image_thumbnails image) as [e|ys] eqn:E1; [discriminate|].
    destruct (for_each image_thumbnails images) as [e|zs] eqn:E2; [discriminate|].
    intros H. injection H as <-.
    rewrite (image_thumbnails_spec _ _ E1), (IH zs eq_refl).
    unfold spec_thumbnails. simpl.
    destruct (is_episode_image image); reflexivity.
Qed.



Lemma episode_thumbnails_images (episode : json) :
  episode_thumbnails episode = (l <~ episode_images episode ;; for_each image_thumbnails l).
Proof.
  unfold episode_thumbnails, episode_images, rbind.
  destruct (py_get_default episode "included" (JObj ∅)) as [e|included]; [done|].
  by destruct (py_get_default included "images" (JArr [])).
Qed.

Lemma episode_info_thumbnails (d : string) (formats : list format)
    (episode : json) (r : info_dict format) :
  episode_info d formats episode = inr r ->
  episode_thumbnails episode = inr (thumbnails r).
Proof.
  unfold RoosterTeethIE.episode_info, rbind.
  repeat match goal with
         | |- context [match ?x with inl _ => _ | inr _ => _ end] =>
             destruct x; try discriminate
         | |- context [if ?b then _ else _] => destruct b
         end;
    intros H; injection H as <-; reflexivity.
Qed.


Lemma absent_or_empty_attr (a : gmap string json) (k : string) :
  absent_or_empty a k <-> truthy (attr a k) = false.
Proof.
  unfold absent_or_empty, attr. split.
  - intros [-> | [t [-> Ht]]]; [reflexivity | exact Ht].
  - destruct (a !! k) as [t|]; [|by left]. intros Ht. right. by exists t.
Qed.

(** [episode_info] on an episode whose attributes are a dict. *)
Lemma episode_info_dict (d : string) (formats : list format)
    (e a : gmap string json) :
  e !! "attributes" = Some (JObj a) ->
  episode_info d formats (JObj e) =
  (title <~ (if truthy (attr a "title") then inr (attr a "title")
             else py_getitem (JObj a) "display_title") ;;
   i <~ py_getitem (JObj e) "id" ;;
   thumbnails <~ episode_thumbnails (JObj e) ;;
   inr {| id := compat_str i;
          display_id := d;
          title := title;
          description := if truthy (attr a "description") then attr a "description"
                         else attr a "caption";
          thumbnails := thumbnails;
          series := attr a "show_title";
          season_number := int_or_none (attr a "season_number");
          season_id := attr a "season_id";
          episode := title;
          episode_number := int_or_none (attr a "number");
          episode_id := str_or_none compat_str (attr e "uuid");
          formats := formats;
          channel_id := attr a "channel_id";
          duration := int_or_none (attr a "length") |}).
Proof.
  intros Ha. unfold RoosterTeethIE.episode_info, py_getitem at 1.
  rewrite Ha. unfold rbind, py_get, py_get_default, attr.
  destruct (truthy (default JNull (a !! "title")));
    [|destruct (py_getitem (JObj a) "display_title"); [done|]];
    (destruct (py_getitem (JObj e) "id"); [done|]);
    (destruct (episode_thumbnails (JObj e)); [done|]);
    by destruct (truthy (default JNull (a !! "description"))).
Qed.

Lemma episode_info_attributes (d : string) (formats : list format)
    (episode : json) (r : info_dict format) :
  episode_info d formats episode = inr r ->
  exists e a, episode = JObj e /\ e !! "attributes" = Some (JObj a).
Proof.
  destruct episode as [| | | | | |e]; try discriminate.
  unfold RoosterTeethIE.episode_info, py_getitem at 1.
  destruct (e !! "attributes") as [[| | | | | |a]|] eqn:Ea; try discriminate.
  intros _. by exists e, a.
Qed.

Lemma episode_info_fields (d : string) (formats : list format)
    (e a : gmap string json) (r : info_dict format) :
  e !! "attributes" = Some (JObj a) ->
  episode_info d formats (JObj e) = inr r ->
  (if truthy (attr a "title") then title r = attr a "title"
   else a !! "display_title" = Some (title r)) /\
  description r = (if truthy (attr a "description") then attr a "description"
                   else attr a "caption") /\
  season_number r = int_or_none (attr a "season_number") /\
  episode_number r = int_or_none (attr a "number") /\
  duration r = int_or_none (attr a "length").
Proof.
  intros Ha. rewrite (episode_info_dict d formats e a Ha). unfold rbind.
  destruct (truthy (attr a "title")).
  - destruct (py_getitem (JObj e) "id"); [discriminate|].
    destruct (episode_thumbnails (JObj e)); [discriminate|].
    intros H. injection H as <-. simpl. done.
  - unfold py_getitem at 1.
    destruct (a !! "display_title") as [x|]; [|discriminate].
    destruct (py_getitem (JObj e) "id"); [discriminate|].
    destruct (episode_thumbnails (JObj e)); [discriminate|].
    intros H. injection H as <-. simpl. done.
Qed.

(** C8 (amended): in a returned record the title is [attributes.title] when
    that is present and not empty, and [attributes.display_title] otherwise;
    the description is [attributes.description] when that is present and not
    empty, and otherwise [attributes.caption] ([None] when there is none). *)
Theorem title_and_description_fallback (url : string) (w w' : world)
    (r : info_dict format) :
  _real_extract url w = (inr r, w') ->
  exists formats e a,
    download_episode (_match_id _VALID_URL url) w = (inr (formats, JObj e), w') /\
    e !! "attributes" = Some (JObj a) /\
    (forall t, a !! "title" = Some t -> truthy t = true -> title r = t) /\
    (absent_or_empty a "title" -> a !! "display_title" = Some (title r)) /\
    (forall t, a !! "description" = Some t -> truthy t = true -> description r = t) /\
    (absent_or_empty a "description" -> description r = attr a "caption").
Proof.
  intros H.
  destruct (real_extract_returns url w w' r H) as [formats [episode [Hd Hi]]].
  destruct (episode_info_attributes _ _ _ _ Hi) as [e [a [-> Ha]]].
  destruct (episode_info_fields _ _ e a r Ha Hi) as [Ht [Hdesc _]].
  exists formats, e, a. split; [done|]. split; [done|].
  split; [|split; [|split]].
  - intros t Hl Htr. unfold attr in Ht. rewrite Hl in Ht. simpl in Ht.
    by rewrite Htr in Ht.
  - intros Hab. apply absent_or_empty_attr in Hab. by rewrite Hab in Ht.
  - intros t Hl Htr. unfold attr in Hdesc at 1 2. rewrite Hl in Hdesc.
    simpl in Hdesc. by rewrite Htr in Hdesc.
  - intros Hab. apply absent_or_empty_attr in Hab. by rewrite Hab in Hdesc.
Qed.


Lemma int_or_none_not_numeric (v : json) :
  numeric v = false -> int_or_none v = None.
Proof.
  destruct v as [|b|n|f|s|l|m]; simpl; try done.
  - by destruct f.
  - intros H. apply bool_decide_eq_false in H.
    destruct (int_of_string s); [|done]. destruct H. by eexists.
Qed.

Lemma int_or_none_missing (a : gmap string json) (k : string) :
  missing_or_not_numeric a k -> int_or_none (attr a k) = None.
Proof.
  unfold attr. intros [-> | [v [-> Hv]]]; [reflexivity|].
  by apply int_or_none_not_numeric.
Qed.

Lemma episode_thumbnails_attributes (e : gmap string json) (v : json) :
  episode_thumbnails (JObj (<["attributes" := v]> e)) = episode_thumbnails (JObj e).
Proof.
  unfold episode_thumbnails. simpl. by rewrite lookup_insert_ne.
Qed.

(** C9: in a returned record, each of [season_number], [episode_number] and
    [duration] is [None] when its source attribute ([season_number],
    [number], [length]) is missing or not a number; and whether a record is
    returned does not depend on what these three attributes hold. *)
Theorem numeric_fields_permissive (d : string) (formats : list format)
    (e a : gmap string json) :
  e !! "attributes" = Some (JObj a) ->
  (forall r, episode_info d formats (JObj e) = inr r ->
     (missing_or_not_numeric a "season_number" -> season_number r = None) /\
     (missing_or_not_numeric a "number" -> episode_number r = None) /\
     (missing_or_not_numeric a "length" -> duration r = None)) /\
  (forall a' : gmap string json,
     (forall k, k ∉ numeric_keys -> a' !! k = a !! k) ->
     returns (episode_info d formats (JObj (<["attributes" := JObj a']> e))) =
     returns (episode_info d formats (JObj e))).
Proof.
  intros Ha. split.
  - intros r Hi.
    destruct (episode_info_fields _ _ e a r Ha Hi) as (_ & _ & -> & -> & ->).
    repeat split; apply int_or_none_missing.
  - intros a' Hk.
    rewrite (episode_info_dict d formats e a Ha).
    rewrite (episode_info_dict d formats _ a' (lookup_insert_eq _ _ _)).
    rewrite episode_thumbnails_attributes.
    unfold attr, py_getitem. rewrite lookup_insert_ne by done.
    rewrite !(Hk "title"), !(Hk "display_title")
      by (unfold numeric_keys; apply (bool_decide_unpack _); reflexivity).
    unfold rbind.
    destruct (truthy (default JNull (a !! "title")));
      [|destruct (a !! "display_title"); [|done]];
      (destruct (e !! "id"); [|done]);
      by destruct (episode_thumbnails (JObj e)).
Qed.

End WithHost.
End EpisodeResolver.

(** ** The series resolver *)
Module SeriesResolver.
Import InfoExtractor RoosterTeethSeriesIE.
Import Authenticator.

(** The states of the walk over the pages of a season. *)
Inductive walk_state : Type :=
| Fetching (page : Z)
| Done
| Failed (e : exn).

(** A listing entry whose canonical link is [l]. *)
Definition is_link (d : json) (l : string) : Prop :=
  (c <~ py_getitem d "canonical_links" ;; py_getitem c "self") = inr (JStr l).

(** A page response that declares page [p] of [tp], with the links [ls]. *)
Definition is_page (j : json) (p tp : Z) (ls : list string) : Prop :=
  py_getitem j "page" = inr (JInt p) /\
  py_getitem j "total_pages" = inr (JInt tp) /\
  exists ds, py_getitem j "data" = inr (JArr ds) /\ Forall2 is_link ds ls.

(** The page references made from the links of a page. *)
Definition page_refs (ls : list string) : list string :=
  (fun l => domain +:+ l) <$> ls.

(** The references of the pages [n], [n+1], ... ([k] pages), in order. *)
Definition pages_refs (content : Z -> list string) (n k : Z) : list string :=
  concat ((fun p => page_refs (content p)) <$> seqZ n k).

Section WithHost.

Variable server : world -> request -> response.
Variable _match_id : string -> string -> string.
Variable urlparse : string -> ParseResult.
Variable parse_qs : string -> list (string * list string).
Variable urlencode : list (string * list string) -> string.
Variable urlunparse : ParseResult -> string.
Variable url_ref : Type.
Variable url_result : string -> url_ref.

Abbreviation page_url := (page_url urlparse parse_qs urlencode urlunparse).
Abbreviation season_page :=
  (season_page server urlparse parse_qs urlencode urlunparse).
Abbreviation get_season_episodes_pages :=
  (get_season_episodes_pages server urlparse parse_qs urlencode urlunparse).
Abbreviation season_entries :=
  (season_entries server urlparse parse_qs urlencode urlunparse).
Abbreviation _real_extract :=
  (_real_extract server _match_id urlparse parse_qs urlencode urlunparse
     url_ref url_result).

(** The request for page [p] of the season [slug]. *)
Definition page_request (link slug : string) (p : Z) : request :=
  mkRequest (page_url link p) (Some (slug +:+ "_" +:+ pretty p)) None.

(** One transition of the walk: the activation of
    [get_season_episodes_pages] for the page of the state. *)
Definition walk_step (link : string) (slug : json) (s : walk_state) (w : world)
    : walk_state * world :=
  match s with
  | Fetching n =>
      match season_page link slug n w with
      | (inr (_, true), w') => (Fetching (n + 1), w')
      | (inr (_, false), w') => (Done, w')
      | (inl e, w') => (Failed e, w')
      end
  | _ => (s, w)
  end.

(** The backend answers the pages [lo..hi] of a season, in every world, with
    the page asked for, the same [tp] and the links [content p]. *)
Definition stable_backend (link slug : string) (lo hi tp : Z)
    (content : Z -> list string) : Prop :=
  forall w p, lo <= p <= hi ->
    exists j, resp_result (server w (page_request link slug p)) = inr j /\
              is_page j p tp (content p).

(** The world after the pages [ps] were requested one after the other. *)
Definition after_pages (link slug : string) (w : world) (ps : list Z) : world :=
  foldl (fun w p => after_request server w (page_request link slug p)) w ps.

Lemma py_eq_int_refl (p : Z) : py_eq_int p (JInt p) = true.
Proof.
  unfold py_eq_int. simpl. rewrite Z.min_id, Z.sub_diag. simpl.
  by rewrite Z.mul_1_r, Z.compare_refl.
Qed.

Lemma py_lt_int (p q : Z) : py_lt (JInt p) (JInt q) = inr (p <? q).
Proof.
  unfold py_lt. simpl. rewrite Z.min_id, Z.sub_diag. simpl.
  rewrite !Z.mul_1_r. unfold Z.ltb. by destruct (p ?= q).
Qed.

Lemma for_each_links (ds : list json) (ls : list string) :
  Forall2 is_link ds ls -> for_each link_entry ds = inr (page_refs ls).
Proof.
  induction 1 as [|d l ds ls Hd _ IH]; [reflexivity|].
  simpl. rewrite IH. unfold link_entry, is_link, rbind in *.
  destruct (py_getitem d "canonical_links") as [e|c]; [discriminate|].
  by rewrite Hd.
Qed.

Lemma season_page_stable (link slug : string) (p tp : Z) (ls : list string)
    (w : world) (j : json) :
  resp_result (server w (page_request link slug p)) = inr j ->
  is_page j p tp ls ->
  season_page link (JStr slug) p w =
    (inr (page_refs ls, p <? tp), after_request server w (page_request link slug p)).
Proof.
  intros Hr (Hp & Ht & ds & Hd & Hl).
  unfold RoosterTeethSeriesIE.season_page. run.
  unfold InfoExtractor._download_json, page_request in *. simpl.
  rewrite Hr, Hp. simpl. rewrite py_eq_int_refl, Hd. simpl.
  rewrite (for_each_links ds ls Hl), Ht, py_lt_int. reflexivity.
Qed.

Lemma walk_unfold (fuel : nat) (link : string) (slug : json) (n : Z) (w : world) :
  get_season_episodes_pages (S fuel) link slug (Some n) w =
  match season_page link slug n w with
  | (inr (es, true), w1) =>
      match get_season_episodes_pages fuel link slug (Some (n + 1)) w1 with
      | (inr rest, w2) => (inr (es ++ rest), w2)
      | (inl e, w2) => (inl e, w2)
      end
  | (inr (es, false), w1) => (inr es, w1)
  | (inl e, w1) => (inl e, w1)
  end.
Proof.
  simpl. unfold bind at 1.
  destruct (season_page link slug n w) as [[e|[es [|]]] w1]; reflexivity.
Qed.

Lemma pages_refs_cons (content : Z -> list string) (n k : Z) :
  0 < k ->
  pages_refs content n k = page_refs (content n) ++ pages_refs content (n + 1) (k - 1).
Proof.
  intros Hk. unfold pages_refs. rewrite (seqZ_cons n k) by lia.
  by rewrite Z.add_1_r, Z.sub_1_r.
Qed.

Lemma after_pages_cons (link slug : string) (w : world) (n k : Z) :
  0 < k ->
  after_pages link slug w (seqZ n k) =
  after_pages link slug (after_request server w (page_request link slug n))
    (seqZ (n + 1) (k - 1)).
Proof.
  intros Hk. unfold after_pages. rewrite (seqZ_cons n k) by lia.
  by rewrite Z.add_1_r, Z.sub_1_r.
Qed.

(** The walk from page [n] of a season with a fixed [tp]: it returns, having
    requested the pages [n], [n+1], ... up to [tp] (page [n] alone when
    [tp <= n]), and its result is their references in order. *)
Lemma walk_pages (link slug : string) (tp : Z) (content : Z -> list string)
    (fuel : nat) :
  forall n w,
    stable_backend link slug n (Z.max n tp) tp content ->
    (Z.to_nat (tp - n) < fuel)%nat ->
    get_season_episodes_pages fuel link (JStr slug) (Some n) w =
      (inr (pages_refs content n (Z.max 1 (tp - n + 1))),
       after_pages link slug w (seqZ n (Z.max 1 (tp - n + 1)))).
Proof.
  induction fuel as [|fuel IH]; intros n w Hs Hf; [lia|].
  rewrite walk_unfold.
  destruct (Hs w n ltac:(lia)) as [j [Hr Hp]].
  rewrite (season_page_stable link slug n tp _ w j Hr Hp).
  rewrite pages_refs_cons, after_pages_cons by lia.
  destruct (n <? tp) eqn:Hlt.
  - apply Z.ltb_lt in Hlt.
    rewrite (IH (n + 1)); [| |lia].
    + by replace (Z.max 1 (tp - (n + 1) + 1)) with (Z.max 1 (tp - n + 1) - 1) by lia.
    + intros w' p Hp'. apply Hs. lia.
  - apply Z.ltb_ge in Hlt.
    replace (Z.max 1 (tp - n + 1) - 1) with 0 by lia.
    unfold pages_refs, after_pages. simpl. by rewrite app_nil_r.
Qed.

Lemma after_pages_log (link slug : string) (ps : list Z) :
  forall w, log (after_pages link slug w ps) = log w ++ (page_request link slug <$> ps).
Proof.
  induction ps as [|p ps IH]; intros w; simpl.
  - by rewrite app_nil_r.
  - unfold after_pages in *. simpl. rewrite IH. simpl.
    by rewrite <- app_assoc.
Qed.

Lemma pages_refs_length (content : Z -> list string) (n k : Z) :
  length (pages_refs content n k) =
  sum_list_with (fun p => length (content p)) (seqZ n k).
Proof.
  unfold pages_refs. induction (seqZ n k) as [|p ps IH]; [reflexivity|].
  rewrite fmap_cons, concat_cons, length_app, IH. unfold page_refs.
  by rewrite length_fmap.
Qed.

Lemma walk_step_stable (link slug : string) (p tp : Z) (ls : list string)
    (w : world) (j : json) :
  resp_result (server w (page_request link slug p)) = inr j ->
  is_page j p tp ls ->
  walk_step link (JStr slug) (Fetching p) w =
    (if p <? tp then Fetching (p + 1) else Done,
     after_request server w (page_request link slug p)).
Proof.
  intros Hr Hp. unfold walk_step.
  rewrite (season_page_stable link slug p tp ls w j Hr Hp).
  by destruct (p <? tp).
Qed.

Lemma last_seqZ (n k : Z) : 0 < k -> last (seqZ n k) = Some (n + k - 1).
Proof.
  intros Hk. rewrite last_lookup, length_seqZ.
  rewrite lookup_seqZ_lt by lia. f_equal. lia.
Qed.

(** C3 (amended): with a total that stays the same, the walk from page [n]
    terminates.  A fetched page [p] is followed by page [p + 1] exactly when
    [p < total_pages], and the walk is done exactly when
    [total_pages <= p]; so the pages requested are [n], [n + 1], ... and the
    last of them is [total_pages] when [n <= total_pages], and [n] itself
    otherwise. *)
Theorem pagination_terminates (link slug : string) (n tp : Z)
    (content : Z -> list string) :
  stable_backend link slug n (Z.max n tp) tp content ->
  (forall w p, n <= p <= Z.max n tp ->
     (walk_step link (JStr slug) (Fetching p) w).1 =
       if p <? tp then Fetching (p + 1) else Done) /\
  (forall fuel w, (Z.to_nat (tp - n) < fuel)%nat ->
     exists es w',
       get_season_episodes_pages fuel link (JStr slug) (Some n) w = (inr es, w') /\
       log w' = log w ++ (page_request link slug <$> seqZ n (Z.max 1 (tp - n + 1)))) /\
  last (seqZ n (Z.max 1 (tp - n + 1))) = Some (Z.max n tp).
Proof.
  intros Hs. split; [|split].
  - intros w p Hp. destruct (Hs w p Hp) as [j [Hr Hj]].
    by rewrite (walk_step_stable link slug p tp _ w j Hr Hj).
  - intros fuel w Hf. eexists. eexists. split.
    + by apply (walk_pages link slug tp content fuel n w).
    + apply after_pages_log.
  - rewrite last_seqZ by lia. f_equal. lia.
Qed.

(** The backend echoes the page number it is asked for, for the pages from
    [lo] up to, and without, [hi]. *)
Definition echoes_page (link : string) (lo hi : Z) : Prop :=
  forall w p vid j v,
    lo <= p < hi ->
    resp_result (server w (mkRequest (page_url link p) vid None)) = inr j ->
    py_getitem j "page" = inr v ->
    py_eq_int p v = true.

Lemma py_getitem_error (v : json) (k : string) (e : exn) :
  py_getitem v k = inl e -> e = TypeError \/ e = KeyError k.
Proof.
  destruct v; simpl; try (intros [= <-]; by left).
  destruct (m !! k); [discriminate|]. intros [= <-]. by right.
Qed.

Lemma link_entry_error (d : json) (e : exn) :
  link_entry d = inl e -> e <> AssertionError.
Proof.
  unfold link_entry, rbind.
  destruct (py_getitem d "canonical_links") as [e1|c] eqn:E1.
  { intros [= <-]. by destruct (py_getitem_error _ _ _ E1) as [-> | ->]. }
  destruct (py_getitem c "self") as [e2|x] eqn:E2.
  { intros [= <-]. by destruct (py_getitem_error _ _ _ E2) as [-> | ->]. }
  destruct x; simpl; by intros [= <-].
Qed.

Lemma for_each_link_entry_error (ds : list json) (e : exn) :
  for_each link_entry ds = inl e -> e <> AssertionError.
Proof.
  induction ds as [|d ds IH]; simpl; [discriminate|].
  destruct (link_entry d) as [e1|ys] eqn:E1.
  { intros [= <-]. by apply (link_entry_error d). }
  destruct (for_each link_entry ds) as [e2|zs]; [|discriminate].
  intros [= <-]. by apply IH.
Qed.

Lemma season_page_echo (link : string) (slug : json) (lo hi p : Z) (w : world) :
  echoes_page link lo hi -> lo <= p < hi ->
  (season_page link slug p w).1 <> inl AssertionError.
Proof.
  intros He Hin. unfold RoosterTeethSeriesIE.season_page. run.
  destruct (page_video_id slug p) as [e|vid] eqn:Ev.
  { destruct slug; simpl in Ev; try discriminate; by injection Ev as <-. }
  unfold InfoExtractor._download_json. simpl.
  destruct (resp_result (server w (mkRequest (page_url link p) (Some vid) None)))
    as [[msg c]|j] eqn:Hr; [done|].
  destruct (py_getitem j "page") as [e|v] eqn:Hp.
  { simpl. by destruct (py_getitem_error _ _ _ Hp) as [-> | ->]. }
  simpl. rewrite (He w p (Some vid) j v Hin Hr Hp).
  destruct (py_getitem j "data") as [e|data] eqn:Hd.
  { simpl. by destruct (py_getitem_error _ _ _ Hd) as [-> | ->]. }
  simpl. destruct (py_iter data) as [e|links] eqn:Hi.
  { destruct data; simpl in Hi; try discriminate; by injection Hi as <-. }
  simpl. destruct (for_each link_entry links) as [e|entries] eqn:Hf.
  { simpl. intros [= ->]. by apply (for_each_link_entry_error links _ Hf). }
  simpl. destruct (py_getitem j "total_pages") as [e|tp] eqn:Ht.
  { simpl. by destruct (py_getitem_error _ _ _ Ht) as [-> | ->]. }
  simpl. unfold py_lt. destruct (as_num v); [|done].
  by destruct (as_num tp).
Qed.

Lemma season_page_mismatch (link slug : string) (p : Z) (w : world) (j v : json) :
  resp_result (server w (page_request link slug p)) = inr j ->
  py_getitem j "page" = inr v ->
  py_eq_int p v = false ->
  season_page link (JStr slug) p w =
    (inl AssertionError, after_request server w (page_request link slug p)).
Proof.
  intros Hr Hp Hne. unfold RoosterTeethSeriesIE.season_page. run.
  unfold InfoExtractor._download_json, page_request in *. simpl.
  rewrite Hr, Hp. simpl. by rewrite Hne.
Qed.

Lemma walk_default (fuel : nat) (link : string) (slug : json) (w : world) :
  get_season_episodes_pages fuel link slug None w =
  get_season_episodes_pages fuel link slug (Some 1) w.
Proof. by destruct fuel. Qed.

Lemma walk_echo (link : string) (fuel : nat) :
  forall slug n w,
    echoes_page link n (n + Z.of_nat fuel) ->
    (get_season_episodes_pages fuel link slug (Some n) w).1 <> inl AssertionError.
Proof.
  induction fuel as [|fuel IH]; intros slug n w He; [done|].
  rewrite walk_unfold.
  pose proof (season_page_echo link slug _ _ n w He ltac:(lia)) as Hn.
  destruct (season_page link slug n w) as [[e|[es [|]]] w1]; simpl in *.
  - intros [= ->]. by apply Hn.
  - assert (echoes_page link (n + 1) (n + 1 + Z.of_nat fuel)) as He'.
    { intros w' p vid j v Hp. apply He. lia. }
    pose proof (IH slug (n + 1) w1 He') as Hrec.
    destruct (get_season_episodes_pages fuel link slug (Some (n + 1)) w1)
      as [[e'|rest] w2]; simpl in *; done.
  - done.
Qed.

(** C4: every activation of the walk compares the page number of the
    response with the page it asked for.  When the backend echoes the page
    number (on the pages the walk can reach), the walk never fails with an
    assertion error.  When the two
    differ, the activation fails with the assertion error right after its
    single request, and a failure in a later page makes the whole walk fail:
    the entries collected before are not returned. *)
Theorem page_number_assertion (link : string) :
  (forall fuel slug page w,
     echoes_page link (default 1 page) (default 1 page + Z.of_nat fuel) ->
     (get_season_episodes_pages fuel link slug page w).1 <> inl AssertionError) /\
  (forall fuel slug p w j v,
     resp_result (server w (page_request link slug p)) = inr j ->
     py_getitem j "page" = inr v ->
     py_eq_int p v = false ->
     get_season_episodes_pages (S fuel) link (JStr slug) (Some p) w =
       (inl AssertionError, after_request server w (page_request link slug p))) /\
  (forall fuel slug p w es w1 e w2,
     season_page link slug p w = (inr (es, true), w1) ->
     get_season_episodes_pages fuel link slug (Some (p + 1)) w1 = (inl e, w2) ->
     get_season_episodes_pages (S fuel) link slug (Some p) w = (inl e, w2)).
Proof.
  split; [|split].
  - intros fuel slug [n|] w He; [|rewrite walk_default]; by apply walk_echo.
  - intros fuel slug p w j v Hr Hp Hne. rewrite walk_unfold.
    by rewrite (season_page_mismatch link slug p w j v Hr Hp Hne).
  - intros fuel slug p w es w1 e w2 H1 H2. rewrite walk_unfold.
    by rewrite H1, H2.
Qed.

(** A season of the listing: its episode link and slug, and what the
    backend holds for it (the number of pages and the links of each). *)
Record season_listing : Type := mkSeason {
  s_link : string;
  s_slug : string;
  s_total : Z;
  s_content : Z -> list string
}.

(** An entry of the seasons listing that stands for the season [s]. *)
Definition is_season (j : json) (s : season_listing) : Prop :=
  (l <~ py_getitem j "links" ;; py_getitem l "episodes") = inr (JStr (s_link s)) /\
  (a <~ py_getitem j "attributes" ;; py_getitem a "slug") = inr (JStr (s_slug s)).

(** A show response with the given title and link to its seasons. *)
Definition is_show (j : json) (title : json) (seasons_link : string) : Prop :=
  exists data0,
    (d <~ py_getitem j "data" ;; py_getitem0 d) = inr data0 /\
    (l <~ py_getitem data0 "links" ;; py_getitem l "seasons") = inr (JStr seasons_link) /\
    (a <~ py_getitem data0 "attributes" ;; py_getitem a "title") = inr title.

Definition show_request (show_id : string) : request :=
  mkRequest (api_domain +:+ "/api/v1/shows/" +:+ show_id) (Some show_id) None.

Definition seasons_request (show_id seasons_link : string) : request :=
  mkRequest (api_domain +:+ seasons_link) (Some (show_id +:+ "_seasons")) None.

(** The references and the requests of a whole season, pages 1 to its total. *)
Definition season_refs (s : season_listing) : list string :=
  pages_refs (s_content s) 1 (s_total s).

Definition season_requests (s : season_listing) : list request :=
  page_request (api_domain +:+ s_link s) (s_slug s) <$> seqZ 1 (s_total s).

(** The backend serves the season [s] steadily, it has at least one page,
    and the interpreter allows the depth its walk needs. *)
Definition season_served (fuel : nat) (s : season_listing) : Prop :=
  1 <= s_total s /\
  (Z.to_nat (s_total s) <= fuel)%nat /\
  stable_backend (api_domain +:+ s_link s) (s_slug s) 1 (s_total s) (s_total s)
    (s_content s).

Lemma walk_season (link slug : string) (tp : Z) (content : Z -> list string)
    (fuel : nat) (w : world) :
  1 <= tp ->
  (Z.to_nat tp <= fuel)%nat ->
  stable_backend link slug 1 tp tp content ->
  get_season_episodes_pages fuel link (JStr slug) None w =
    (inr (pages_refs content 1 tp), after_pages link slug w (seqZ 1 tp)).
Proof.
  intros Htp Hf Hs. rewrite walk_default.
  rewrite (walk_pages link slug tp content fuel 1 w).
  - by replace (Z.max 1 (tp - 1 + 1)) with tp by lia.
  - by replace (Z.max 1 tp) with tp by lia.
  - lia.
Qed.

Lemma season_entries_served (fuel : nat) (j : json) (s : season_listing)
    (w : world) :
  is_season j s ->
  season_served fuel s ->
  season_entries fuel j w =
    (inr (season_refs s),
     after_pages (api_domain +:+ s_link s) (s_slug s) w (seqZ 1 (s_total s))).
Proof.
  intros [Hl Ha] (Htp & Hf & Hs).
  unfold RoosterTeethSeriesIE.season_entries. unfold bind at 1, lift at 1.
  unfold rbind in Hl, Ha |- *.
  destruct (py_getitem j "links") as [e|l]; [discriminate|]. rewrite Hl.
  simpl. unfold bind at 1, lift at 1.
  destruct (py_getitem j "attributes") as [e|a]; [discriminate|]. rewrite Ha.
  by apply walk_season.
Qed.

Lemma seasons_loop (fuel : nat) (ss : list json) (seasons : list season_listing) :
  Forall2 is_season ss seasons ->
  Forall (season_served fuel) seasons ->
  forall w, exists w',
    for_eachM (season_entries fuel) ss w = (inr (concat (season_refs <$> seasons)), w') /\
    log w' = log w ++ concat (season_requests <$> seasons).
Proof.
  induction 1 as [|j s ss seasons Hj _ IH]; intros Hf w.
  - exists w. split; [reflexivity|]. simpl. by rewrite app_nil_r.
  - apply Forall_cons in Hf as [Hs Hf].
    destruct (IH Hf (after_pages (api_domain +:+ s_link s) (s_slug s) w
                       (seqZ 1 (s_total s)))) as [w' [Hrun Hlog]].
    exists w'. split.
    + simpl. unfold bind at 1.
      rewrite (season_entries_served fuel j s w Hj Hs).
      unfold bind at 1. by rewrite Hrun.
    + rewrite Hlog, after_pages_log, fmap_cons, concat_cons.
      by rewrite <- app_assoc.
Qed.

(** C2 (amended): for a season with at least one page whose backend reports
    the page asked for and a steady total, the walk requests exactly the
    pages 1, ..., total_pages, once each and in order, and returns the
    references of these pages in order (each the canonical link behind the
    site domain); the series resolver returns the references of all seasons
    in listing order, then page order, then order within the page, and their
    number is the sum of the sizes of the pages. *)
Theorem series_entries_in_order (fuel : nat) :
  (forall link slug tp content w,
     1 <= tp ->
     (Z.to_nat tp <= fuel)%nat ->
     stable_backend link slug 1 tp tp content ->
     exists w',
       get_season_episodes_pages fuel link (JStr slug) None w =
         (inr (pages_refs content 1 tp), w') /\
       log w' = log w ++ (page_request link slug <$> seqZ 1 tp) /\
       NoDup (seqZ 1 tp) /\
       length (pages_refs content 1 tp) =
         sum_list_with (fun p => length (content p)) (seqZ 1 tp)) /\
  (forall url title seasons_link (seasons : list season_listing) w,
     let show_id := _match_id _VALID_URL url in
     (forall w, exists j,
        resp_result (server w (show_request show_id)) = inr j /\
        is_show j title seasons_link) ->
     (forall w, exists j ss,
        resp_result (server w (seasons_request show_id seasons_link)) = inr j /\
        py_getitem j "data" = inr (JArr ss) /\
        Forall2 is_season ss seasons) ->
     Forall (season_served fuel) seasons ->
     exists w',
       _real_extract fuel url w =
         (inr (mkPlaylist url_ref "playlist" show_id title
                 (url_result <$> concat (season_refs <$> seasons))), w') /\
       log w' = log w ++ [show_request show_id; seasons_request show_id seasons_link]
                  ++ concat (season_requests <$> seasons) /\
       length (url_result <$> concat (season_refs <$> seasons)) =
         sum_list_with
           (fun s => sum_list_with (fun p => length (s_content s p))
                       (seqZ 1 (s_total s)))
           seasons).
Proof.
  split.
  - intros link slug tp content w Htp Hf Hs. eexists. split; [|split; [|split]].
    + by apply walk_season.
    + apply after_pages_log.
    + apply NoDup_seqZ.
    + apply pages_refs_length.
  - intros url title seasons_link seasons w show_id Hshow Hseasons Hserved.
    destruct (Hshow w) as (j & Hj & data0 & Hd0 & Hl & Ht).
    set (w1 := after_request server w (show_request show_id)).
    destruct (Hseasons w1) as (j2 & ss & Hj2 & Hss & Hall).
    set (w2 := after_request server w1 (seasons_request show_id seasons_link)).
    destruct (seasons_loop fuel ss seasons Hall Hserved w2) as [w' [Hrun Hlog]].
    exists w'. split; [|split].
    + unfold RoosterTeethSeriesIE._real_extract. fold show_id.
      unfold bind at 1, InfoExtractor._download_json at 1.
      unfold show_request in Hj. simpl in Hj |- *. rewrite Hj.
      unfold bind at 1, lift at 1. rewrite Hd0.
      unfold bind at 1, lift at 1. unfold rbind in Hl |- *.
      destruct (py_getitem data0 "links") as [e|l]; [discriminate|].
      rewrite Hl. simpl.
      unfold bind at 1, InfoExtractor._download_json at 1.
      unfold seasons_request, w1, after_request, show_request in Hj2.
      simpl in Hj2 |- *. rewrite Hj2.
      unfold bind at 1, lift at 1. rewrite Hss.
      unfold bind at 1, lift at 1. simpl.
      unfold bind at 1.
      unfold w2, w1, after_request, seasons_request, show_request in Hrun.
      simpl in Hrun. rewrite Hrun.
      unfold bind at 1, lift at 1. unfold rbind in Ht.
      destruct (py_getitem data0 "attributes") as [e|a]; [discriminate|].
      by rewrite Ht.
    + rewrite Hlog. unfold w2, w1, after_request. simpl.
      by rewrite <- !app_assoc.
    + rewrite length_fmap. clear.
      induction seasons as [|s seasons IH]; [reflexivity|].
      rewrite fmap_cons, concat_cons, length_app, IH. simpl.
      unfold season_refs. by rewrite pages_refs_length.
Qed.

End WithHost.
End SeriesResolver.

(** * A small backend to run the extractors on *)
Module Sample.
Import InfoExtractor.

(** ** Text helpers *)

Definition dq : string := String (ascii_of_nat 34) EmptyString.

(** [s] up to the first [c], and what follows it. *)
Fixpoint split_at (c : ascii) (s : string) : string * option string :=
  match s with
  | EmptyString => (EmptyString, None)
  | String a s' =>
      if Ascii.eqb a c then (EmptyString, Some s')
      else let (x, y) := split_at c s' in (String a x, y)
  end.

(** The pieces of [s] between the occurrences of [c]. *)
Fixpoint fields (c : ascii) (s : string) : list string :=
  match s with
  | EmptyString => [EmptyString]
  | String a s' =>
      if Ascii.eqb a c then EmptyString :: fields c s'
      else match fields c s' with
           | f :: fs => String a f :: fs
           | [] => [String a EmptyString]
           end
  end.

Fixpoint join (sep : string) (l : list string) : string :=
  match l with
  | [] => EmptyString
  | [x] => x
  | x :: l' => x +:+ sep +:+ join sep l'
  end.

(** ** URL helpers, for URLs of the form [path?k=v&k=v] *)

Definition urlparse (url : string) : RoosterTeethSeriesIE.ParseResult :=
  let (p, q) := split_at "?" url in
  RoosterTeethSeriesIE.mkParseResult "" "" p "" (default "" q) "".

Definition urlunparse (u : RoosterTeethSeriesIE.ParseResult) : string :=
  match RoosterTeethSeriesIE.query u with
  | EmptyString => RoosterTeethSeriesIE.path u
  | q => RoosterTeethSeriesIE.path u +:+ "?" +:+ q
  end.

Definition parse_qs (q : string) : list (string * list string) :=
  match q with
  | EmptyString => []
  | _ => (fun f => let (k, v) := split_at "=" f in (k, [default "" v])) <$> fields "&" q
  end.

Definition urlencode (qs : list (string * list string)) : string :=
  join "&" (flat_map (fun kv => (fun v => kv.1 +:+ "=" +:+ v) <$> kv.2) qs).

Definition _match_id (_ url : string) : string :=
  default "" (last (fields "/" url)).

Definition compat_str (v : json) : string :=
  match v with
  | JStr s => s
  | JInt n => pretty n
  | _ => "None"
  end.

(** ** JSON values *)

Definition obj (l : list (string * json)) : json := JObj (list_to_map l).

(** The error bodies of the backend, and what [json.loads] makes of them. *)
Definition body_denied : string := "{" +:+ dq +:+ "access" +:+ dq +:+ ": false}".
Definition body_granted : string := "{" +:+ dq +:+ "access" +:+ dq +:+ ": true}".
Definition body_locked : string :=
  "{" +:+ dq +:+ "extra_info" +:+ dq +:+ ": " +:+ dq +:+ "Account locked" +:+ dq +:+ ", "
      +:+ dq +:+ "error" +:+ dq +:+ ": " +:+ dq +:+ "invalid_grant" +:+ dq +:+ "}".
Definition body_grant : string :=
  "{" +:+ dq +:+ "error" +:+ dq +:+ ": " +:+ dq +:+ "invalid_grant" +:+ dq +:+ "}".

Definition body_code : string :=
  "{" +:+ dq +:+ "error" +:+ dq +:+ ": 400}".

Definition json_loads (s : string) : string + json :=
  if String.eqb s body_denied then inr (obj [("access", JBool false)])
  else if String.eqb s body_granted then inr (obj [("access", JBool true)])
  else if String.eqb s body_locked then
    inr (obj [("extra_info", JStr "Account locked"); ("error", JStr "invalid_grant")])
  else if String.eqb s body_grant then inr (obj [("error", JStr "invalid_grant")])
  else if String.eqb s body_code then inr (obj [("error", JInt 400)])
  else inl "Expecting value: line 1 column 1 (char 0)".

(** ** Episodes *)

Definition image (type : string) (tag url : string) : json :=
  obj [("type", JStr type); ("attributes", obj [(tag, JStr url)])].

(** The images of the thumbnail example of the specification. *)
Definition example_images : list json :=
  [image "episode_image" "thumb" "A"; image "other" "thumb" "B"].

(** An episode with an empty title and no numbers. *)
Definition untitled_attributes : gmap string json :=
  list_to_map [("title", JStr ""); ("display_title", JStr "X");
               ("caption", JStr "about X");
               ("season_number", JStr "two"); ("length", JNull)].

Definition untitled_fields : gmap string json :=
  list_to_map [("id", JInt 9156); ("attributes", JObj untitled_attributes);
               ("included", obj [("images", JArr example_images)])].

(** An episode with neither [title] nor [display_title]. *)
Definition nameless_attributes : gmap string json :=
  list_to_map [("caption", JStr "no name")].

Definition nameless_fields : gmap string json :=
  list_to_map [("id", JInt 1); ("attributes", JObj nameless_attributes)].

Definition manifest : json :=
  obj [("data", JArr [obj [("attributes", obj [("url", JStr "https://cdn/x.m3u8")])]])].

Definition forbidden (body : string) : response :=
  mkResponse (inl ("HTTP Error 403: Forbidden", Some (HTTPError 403 body))) ∅.

Definition not_found : response :=
  mkResponse (inl ("HTTP Error 404: Not Found", Some (HTTPError 404 ""))) ∅.

Definition ok (j : json) : response := mkResponse (inr j) ∅.

(** ** Seasons *)

Definition page (p tp : Z) (ls : list string) : json :=
  obj [("page", JInt p); ("total_pages", JInt tp);
       ("data", JArr ((fun l => obj [("canonical_links", obj [("self", JStr l)])]) <$> ls))].

(** Season s1 has two pages; season s0 is empty and declares no page. *)
Definition s1_link : string := "/api/v1/seasons/s1/episodes".
Definition s0_link : string := "/api/v1/seasons/s0/episodes".

Definition s1_content (p : Z) : list string :=
  if p =? 1 then ["/episode/a"; "/episode/b"]
  else if p =? 2 then ["/episode/c"] else [].

Definition s0_content (_ : Z) : list string := [].

Definition page_url (link : string) (p : Z) : string :=
  RoosterTeethSeriesIE.page_url urlparse parse_qs urlencode urlunparse link p.

Definition show : json :=
  obj [("data", JArr [obj [("attributes", obj [("title", JStr "Sunday Driving")]);
                           ("links", obj [("seasons", JStr "/api/v1/shows/sunday-driving/seasons")])]])].

Definition seasons : json :=
  obj [("data", JArr [obj [("attributes", obj [("slug", JStr "s1")]);
                           ("links", obj [("episodes", JStr s1_link)])]])].

(** ** The backend

    [auth] is the answer of the token endpoint. *)
Definition server (auth : response) (_ : world) (rq : request) : response :=
  let url := req_url rq in
  let ep := RoosterTeethIE._EPISODE_BASE_URL in
  let api := RoosterTeethSeriesIE.api_domain in
  if String.eqb url "https://auth.roosterteeth.com/oauth/token" then auth
  else if String.eqb url (ep +:+ "members/videos") then forbidden body_denied
  else if String.eqb url (ep +:+ "renewed/videos") then forbidden body_granted
  else if String.eqb url (ep +:+ "garbled/videos") then forbidden "<html>Forbidden</html>"
  else if String.eqb url (ep +:+ "untitled/videos") then ok manifest
  else if String.eqb url (ep +:+ "nameless/videos") then ok manifest
  else if String.eqb url (ep +:+ "untitled") then ok (obj [("data", JArr [JObj untitled_fields])])
  else if String.eqb url (ep +:+ "nameless") then ok (obj [("data", JArr [JObj nameless_fields])])
  else if String.eqb url (api +:+ "/api/v1/shows/sunday-driving") then ok show
  else if String.eqb url (api +:+ "/api/v1/shows/sunday-driving/seasons") then ok seasons
  else if String.eqb url (page_url (api +:+ s1_link) 1) then ok (page 1 2 (s1_content 1))
  else if String.eqb url (page_url (api +:+ s1_link) 2) then ok (page 2 2 (s1_content 2))
  else if String.eqb url (page_url (api +:+ s1_link) 3) then ok (page 3 2 [])
  else if String.eqb url (page_url (api +:+ s1_link) 4) then ok (page 1 2 (s1_content 1))
  else if String.eqb url (page_url (api +:+ s0_link) 1) then ok (page 1 0 [])
  else not_found.

(** The token endpoint answers and sets the session cookie. *)
Definition auth_ok : response :=
  mkResponse (inr (obj [("access_token", JStr "t0k3n")])) {["rt_access_token" := "t0k3n"]}.

Definition auth_error (code : Z) (body : string) : response :=
  mkResponse (inl ("HTTP Error", Some (HTTPError code body))) ∅.

Definition w0 : world := mkWorld ∅ [] [].

(** The formats of the manifest: one stream. *)
Definition _extract_m3u8_formats (_ : json) (_ : string) : M (list string) :=
  ret ["hls-720"].

Definition _sort_formats (l : list string) : M (list string) :=
  match l with
  | [] => raise (ExtractorError "No video formats found" None)
  | _ => ret l
  end.

End Sample.

(** * The properties on the sample backend *)
Module Examples.
Import InfoExtractor Sample Authenticator EpisodeResolver SeriesResolver.

Abbreviation backend := (server auth_ok).

Abbreviation episode_extract :=
  (RoosterTeethIE._real_extract backend json_loads _match_id string
     _extract_m3u8_formats _sort_formats compat_str).

Abbreviation episode_download :=
  (RoosterTeethIE.download_episode backend json_loads string
     _extract_m3u8_formats _sort_formats).

Abbreviation season_walk :=
  (RoosterTeethSeriesIE.get_season_episodes_pages backend urlparse parse_qs
     urlencode urlunparse).

Abbreviation series_extract :=
  (RoosterTeethSeriesIE._real_extract backend _match_id urlparse parse_qs
     urlencode urlunparse string (fun url => url)).

Abbreviation page_request := (page_request urlparse parse_qs urlencode urlunparse).

Definition api : string := RoosterTeethSeriesIE.api_domain.

(** ** The authenticator *)

Lemma ensure_session_witness :
  RoosterTeethIE._real_initialize backend json_loads None w0 = (inr tt, w0) /\
  exists w1,
    RoosterTeethIE._real_initialize backend json_loads (Some ("u", "p")) w0 = (inr tt, w1) /\
    log w1 = log w0 ++ [login_request "u" "p"] /\
    RoosterTeethIE._real_initialize backend json_loads (Some ("u", "p")) w1 = (inr tt, w1).
Proof.
  split.
  - apply (proj1 (ensure_session_idempotent backend json_loads None) w0).
    right. reflexivity.
  - apply (proj2 (ensure_session_idempotent backend json_loads (Some ("u", "p")))
             w0 "u" "p").
    + reflexivity.
    + intros [v Hv]. vm_compute in Hv. discriminate Hv.
    + split; [eexists; vm_compute; reflexivity|].
      eexists. vm_compute. reflexivity.
Defined.




(** A 401 whose [error] field is a number: [msg += ': ' + error] raises. *)
Example login_error_not_text :
  (RoosterTeethIE._login (server (auth_error 401 body_code)) json_loads
     (Some ("u", "p")) w0).1 = inl TypeError.
Proof. vm_compute. reflexivity. Qed.

(** ** The episode resolver *)

Definition members_url : string := "https://roosterteeth.com/episode/members".
Definition untitled_url : string := "https://roosterteeth.com/episode/untitled".

Lemma manifest_forbidden_witness :
  episode_extract members_url w0 =
  (inl (LoginRequired (members_only "members")),
   after_request backend w0 (manifest_request "members")).
Proof.
  destruct (manifest_forbidden backend json_loads _match_id string
              _extract_m3u8_formats _sort_formats compat_str members_url w0
              "HTTP Error 403: Forbidden" (Some (HTTPError 403 body_denied)) eq_refl)
    as [_ H].
  destruct (H body_denied (list_to_map [("access", JBool false)]) eq_refl eq_refl)
    as [H1 _].
  apply H1. vm_compute. reflexivity.
Defined.

(** The message of the members-only error names the FIRST membership. *)
Lemma members_only_message_counterexample :
  resp_result (backend w0 (manifest_request "members")) =
    inl ("HTTP Error 403: Forbidden", Some (HTTPError 403 body_denied)) /\
  json_loads body_denied = inr (obj [("access", JBool false)]) /\
  (episode_extract members_url w0).1 =
    inl (LoginRequired "members is only available for FIRST members") /\
  (episode_extract members_url w0).1 <>
    inl (LoginRequired "members is only available for members").
Proof.
  vm_compute. repeat split; discriminate.
Qed.

(** A 403 whose body is not JSON: the failure of [_parse_json] is raised. *)
Example forbidden_unparsable_body :
  (episode_extract "https://roosterteeth.com/episode/garbled" w0).1 =
  inl (ExtractorError "garbled: Failed to parse JSON "
         (Some (ValueError "Expecting value: line 1 column 1 (char 0)"))).
Proof. vm_compute. reflexivity. Qed.

(** A 403 that does not deny access: the fetch error, as it was. *)
Example forbidden_access_granted :
  (episode_extract "https://roosterteeth.com/episode/renewed" w0).1 =
  inl (ExtractorError "HTTP Error 403: Forbidden" (Some (HTTPError 403 body_granted))).
Proof. vm_compute. reflexivity. Qed.

(** The title example of the specification: no [title], [display_title] "X". *)
Example title_from_display_title :
  (r <~ RoosterTeethIE.episode_info string compat_str "d" []
          (obj [("id", JInt 1); ("attributes", obj [("display_title", JStr "X")])]) ;;
   inr (RoosterTeethIE.title r)) =
  inr (JStr "X").
Proof. vm_compute. reflexivity. Qed.

(** The record of the episode "untitled" and the world after its extraction. *)
Definition untitled_record : RoosterTeethIE.info_dict string :=
  {| RoosterTeethIE.id := "9156";
     RoosterTeethIE.display_id := "untitled";
     RoosterTeethIE.title := JStr "X";
     RoosterTeethIE.description := JStr "about X";
     RoosterTeethIE.thumbnails := [RoosterTeethIE.mkThumbnail "thumb" (JStr "A")];
     RoosterTeethIE.series := JNull;
     RoosterTeethIE.season_number := None;
     RoosterTeethIE.season_id := JNull;
     RoosterTeethIE.episode := JStr "X";
     RoosterTeethIE.episode_number := None;
     RoosterTeethIE.episode_id := None;
     RoosterTeethIE.formats := ["hls-720"];
     RoosterTeethIE.channel_id := JNull;
     RoosterTeethIE.duration := None |}.

Definition untitled_world : world := (episode_extract untitled_url w0).2.

Lemma untitled_extracted :
  episode_extract untitled_url w0 = (inr untitled_record, untitled_world).
Proof. vm_compute. reflexivity. Qed.



Lemma title_fallback_witness :
  exists formats e a,
    episode_download (_match_id RoosterTeethIE._VALID_URL untitled_url) w0 =
      (inr (formats, JObj e), untitled_world) /\
    e !! "attributes" = Some (JObj a) /\
    (forall t, a !! "title" = Some t -> truthy t = true ->
       RoosterTeethIE.title untitled_record = t) /\
    (absent_or_empty a "title" ->
       a !! "display_title" = Some (RoosterTeethIE.title untitled_record)) /\
    (forall t, a !! "description" = Some t -> truthy t = true ->
       RoosterTeethIE.description untitled_record = t) /\
    (absent_or_empty a "description" ->
       RoosterTeethIE.description untitled_record = attr a "caption").
Proof.
  apply (title_and_description_fallback backend json_loads _match_id string
           _extract_m3u8_formats _sort_formats compat_str
           untitled_url w0 untitled_world untitled_record).
  vm_compute. reflexivity.
Defined.

(** A title that is present, and empty: the record takes [display_title]. *)
Lemma title_present_counterexample :
  episode_download (_match_id RoosterTeethIE._VALID_URL untitled_url) w0 =
    (inr (["hls-720"], JObj untitled_fields), untitled_world) /\
  untitled_fields !! "attributes" = Some (JObj untitled_attributes) /\
  untitled_attributes !! "title" = Some (JStr "") /\
  episode_extract untitled_url w0 = (inr untitled_record, untitled_world) /\
  RoosterTeethIE.title untitled_record = JStr "X" /\
  RoosterTeethIE.title untitled_record <> JStr "".
Proof.
  vm_compute. repeat split; discriminate.
Qed.


Lemma numeric_fields_witness :
  RoosterTeethIE.season_number untitled_record = None /\
  RoosterTeethIE.episode_number untitled_record = None /\
  RoosterTeethIE.duration untitled_record = None.
Proof.
  destruct (proj1 (numeric_fields_permissive string compat_str "untitled" ["hls-720"]
                     untitled_fields untitled_attributes
                     ltac:(vm_compute; reflexivity))
              untitled_record ltac:(vm_compute; reflexivity))
    as (H1 & H2 & H3).
  split; [|split].
  - apply H1. right. exists (JStr "two"). split; vm_compute; reflexivity.
  - apply H2. left. vm_compute. reflexivity.
  - apply H3. right. exists JNull. split; vm_compute; reflexivity.
Defined.

(** ** The series resolver *)

Definition s1 : season_listing := mkSeason s1_link "s1" 2 s1_content.

Lemma page_is_page (p tp : Z) (ls : list string) : is_page (page p tp ls) p tp ls.
Proof.
  split; [reflexivity|]. split; [reflexivity|].
  eexists. split; [reflexivity|].
  induction ls as [|l ls IH]; constructor; [reflexivity|exact IH].
Qed.

Lemma s1_stable :
  stable_backend backend urlparse parse_qs urlencode urlunparse
    (api +:+ s1_link) "s1" 1 2 2 s1_content.
Proof.
  intros w p Hp. assert (p = 1 \/ p = 2) as [-> | ->] by lia.
  - exists (page 1 2 (s1_content 1)). split; [vm_compute; reflexivity|].
    apply page_is_page.
  - exists (page 2 2 (s1_content 2)). split; [vm_compute; reflexivity|].
    apply page_is_page.
Qed.

Lemma s1_beyond_stable :
  stable_backend backend urlparse parse_qs urlencode urlunparse
    (api +:+ s1_link) "s1" 3 3 2 (fun _ => []).
Proof.
  intros w p Hp. assert (p = 3) as -> by lia.
  exists (page 3 2 []). split; [vm_compute; reflexivity|]. apply page_is_page.
Qed.

Lemma s0_stable :
  stable_backend backend urlparse parse_qs urlencode urlunparse
    (api +:+ s0_link) "s0" 1 1 0 s0_content.
Proof.
  intros w p Hp. assert (p = 1) as -> by lia.
  exists (page 1 0 []). split; [vm_compute; reflexivity|]. apply page_is_page.
Qed.

Lemma pagination_witness :
  (walk_step backend urlparse parse_qs urlencode urlunparse (api +:+ s1_link)
     (JStr "s1") (Fetching 1) w0).1 = Fetching 2 /\
  (walk_step backend urlparse parse_qs urlencode urlunparse (api +:+ s1_link)
     (JStr "s1") (Fetching 2) w0).1 = Done /\
  exists es w',
    season_walk 5 (api +:+ s1_link) (JStr "s1") (Some 1) w0 = (inr es, w') /\
    log w' = log w0 ++ (page_request (api +:+ s1_link) "s1" <$> [1; 2]).
Proof.
  destruct (pagination_terminates backend urlparse parse_qs urlencode urlunparse
              (api +:+ s1_link) "s1" 1 2 s1_content s1_stable) as (H1 & H2 & _).
  split; [|split].
  - apply (H1 w0 1). vm_compute. split; discriminate.
  - apply (H1 w0 2). vm_compute. split; discriminate.
  - apply (H2 5%nat w0). vm_compute. lia.
Defined.

(** A walk started beyond the last page is done at once, on a page that is
    not [total_pages]. *)
Lemma done_beyond_total_counterexample :
  stable_backend backend urlparse parse_qs urlencode urlunparse
    (api +:+ s1_link) "s1" 3 (Z.max 3 2) 2 (fun _ => []) /\
  (walk_step backend urlparse parse_qs urlencode urlunparse (api +:+ s1_link)
     (JStr "s1") (Fetching 3) w0).1 = Done /\
  (season_walk 5 (api +:+ s1_link) (JStr "s1") (Some 3) w0).1 = inr [] /\
  log (season_walk 5 (api +:+ s1_link) (JStr "s1") (Some 3) w0).2 =
    [page_request (api +:+ s1_link) "s1" 3] /\
  3 <> 2.
Proof.
  split; [exact s1_beyond_stable|]. vm_compute. repeat split; discriminate.
Qed.

Lemma s1_echoes :
  echoes_page backend urlparse parse_qs urlencode urlunparse (api +:+ s1_link) 1 (1 + 2).
Proof.
  intros w p vid j v Hp Hr Hv.
  assert (p = 1 \/ p = 2) as [-> | ->] by lia;
    vm_compute in Hr; injection Hr as <-; vm_compute in Hv; injection Hv as <-;
    reflexivity.
Qed.

Lemma page_assertion_witness :
  (season_walk 2 (api +:+ s1_link) (JStr "s1") (Some 1) w0).1 <> inl AssertionError /\
  season_walk 3 (api +:+ s1_link) (JStr "s1") (Some 4) w0 =
    (inl AssertionError, after_request backend w0 (page_request (api +:+ s1_link) "s1" 4)).
Proof.
  destruct (page_number_assertion backend urlparse parse_qs urlencode urlunparse
              (api +:+ s1_link)) as (H1 & H2 & _).
  split.
  - apply (H1 2%nat (JStr "s1") (Some 1) w0). exact s1_echoes.
  - apply (H2 2%nat "s1" 4 w0 (page 1 2 (s1_content 1)) (JInt 1));
      vm_compute; reflexivity.
Defined.

Definition sunday_driving_url : string := "https://roosterteeth.com/series/sunday-driving".

Definition sunday_driving : string :=
  _match_id RoosterTeethSeriesIE._VALID_URL sunday_driving_url.

Lemma s1_served : season_served backend urlparse parse_qs urlencode urlunparse 5 s1.
Proof.
  split; [vm_compute; discriminate|]. split; [vm_compute; lia|]. exact s1_stable.
Qed.

Lemma series_entries_witness :
  (exists w',
     season_walk 5 (api +:+ s1_link) (JStr "s1") None w0 =
       (inr (pages_refs s1_content 1 2), w') /\
     log w' = log w0 ++ (page_request (api +:+ s1_link) "s1" <$> seqZ 1 2) /\
     NoDup (seqZ 1 2) /\
     length (pages_refs s1_content 1 2) =
       sum_list_with (fun p => length (s1_content p)) (seqZ 1 2)) /\
  (exists w',
     series_extract 5 sunday_driving_url w0 =
       (inr (RoosterTeethSeriesIE.mkPlaylist string "playlist" sunday_driving
               (JStr "Sunday Driving")
               ((fun url => url) <$> concat
                  (season_refs <$> [s1]))), w') /\
     log w' = log w0 ++
       [show_request sunday_driving;
        seasons_request sunday_driving "/api/v1/shows/sunday-driving/seasons"] ++
       concat (season_requests urlparse parse_qs urlencode urlunparse <$> [s1]) /\
     length ((fun url : string => url) <$> concat (season_refs <$> [s1])) =
       sum_list_with
         (fun s => sum_list_with (fun p => length (s_content s p)) (seqZ 1 (s_total s)))
         [s1]) /\
  sunday_driving = "sunday-driving" /\
  concat (season_refs <$> [s1]) =
    ["https://roosterteeth.com/episode/a"; "https://roosterteeth.com/episode/b";
     "https://roosterteeth.com/episode/c"].
Proof.
  destruct (series_entries_in_order backend _match_id urlparse parse_qs urlencode
              urlunparse string (fun url => url) 5) as [H1 H2].
  split; [|split; [|split]].
  - apply (H1 (api +:+ s1_link) "s1" 2 s1_content w0); [lia| vm_compute; lia|].
    exact s1_stable.
  - apply (H2 sunday_driving_url (JStr "Sunday Driving")
             "/api/v1/shows/sunday-driving/seasons" [s1] w0).
    + intros w. exists show. split; [vm_compute; reflexivity|].
      eexists. split; [vm_compute; reflexivity|].
      split; vm_compute; reflexivity.
    + intros w. exists seasons. eexists. split; [vm_compute; reflexivity|].
      split; [vm_compute; reflexivity|].
      constructor; [split; vm_compute; reflexivity | constructor].
    + constructor; [exact s1_served | constructor].
  - vm_compute. reflexivity.
  - vm_compute. reflexivity.
Defined.

(** An empty season whose backend declares no page: page 1 is requested all
    the same, which is not among the pages 1..0. *)
Lemma empty_season_counterexample :
  stable_backend backend urlparse parse_qs urlencode urlunparse
    (api +:+ s0_link) "s0" 1 1 0 s0_content /\
  (season_walk 5 (api +:+ s0_link) (JStr "s0") None w0).1 = inr [] /\
  log (season_walk 5 (api +:+ s0_link) (JStr "s0") None w0).2 =
    [page_request (api +:+ s0_link) "s0" 1] /\
  seqZ 1 0 = [] /\
  log (season_walk 5 (api +:+ s0_link) (JStr "s0") None w0).2 <>
    (page_request (api +:+ s0_link) "s0" <$> seqZ 1 0).
Proof.
  split; [exact s0_stable|]. vm_compute. repeat split; discriminate.
Qed.

End Examples.

(** * Further properties of the extractors *)

(** ** The query string helpers *)
Module QueryString.
Import RoosterTeethSeriesIE.






Section WithUrls.

Variable urlparse : string -> ParseResult.
Variable parse_qs : string -> list (string * list string).
Variable urlencode : list (string * list string) -> string.
Variable urlunparse : ParseResult -> string.

Abbreviation _set_query_string :=
  (_set_query_string urlparse parse_qs urlencode urlunparse).
Abbreviation page_url := (page_url urlparse parse_qs urlencode urlunparse).




End WithUrls.
End QueryString.

(** ** More on the authenticator *)
Module LoginProperties.
Import InfoExtractor RoosterTeethIE.
Import Authenticator.

Section WithHost.

Variable server : world -> request -> response.
Variable json_loads : string -> string + json.

Abbreviation login_failed := (login_failed json_loads).
Abbreviation _login := (_login server json_loads).

(** The handler of a failed exchange only reports warnings: it sends nothing
    and leaves the cookies alone, also when it raises. *)
Lemma login_failed_world (c : option cause) (w : world) :
  log (login_failed c w).2 = log w /\ cookies (login_failed c w).2 = cookies w.
Proof.
  unfold RoosterTeethIE.login_failed. run.
  destruct c as [[code body| |]|]; try done.
  destruct (code =? 401); [|done].
  unfold InfoExtractor._parse_json.
  destruct (json_loads body) as [ve|resp]; run; [done|].
  destruct (truthy resp); [|done].
  destruct (login_error_field resp) as [e|error]; [done|].
  simpl. destruct (truthy error); [|done].
  by destruct (py_str_add _ error).
Qed.

(** X3: with a credential, [_login] sends exactly one request, the password
    grant to the token endpoint, whatever the answer is and also when the
    handling of a failure raises; the cookies afterwards are those the
    transport stored.  When the endpoint answers, [_login] returns without a
    warning and without looking at the answer. *)
Theorem login_single_request (username password : string) (w : world) :
  log (_login (Some (username, password)) w).2 =
    log w ++ [login_request username password] /\
  cookies (_login (Some (username, password)) w).2 =
    resp_cookies (server w (login_request username password)) ∪ cookies w /\
  (forall j, resp_result (server w (login_request username password)) = inr j ->
     _login (Some (username, password)) w =
       (inr tt, after_request server w (login_request username password))).
Proof.
  unfold RoosterTeethIE._login. run.
  unfold InfoExtractor._download_json. simpl.
  fold (login_request username password).
  destruct (resp_result (server w (login_request username password)))
    as [[msg c]|j].
  - destruct (login_failed_world c
                (after_request server w (login_request username password)))
      as [H1 H2].
    split; [exact H1|]. split; [exact H2|]. discriminate.
  - split; [done|]. split; [done|]. intros j' _. reflexivity.
Qed.

(** X4: the handler of an HTTP 401 raises when the parsed body holds
    something it cannot read: a non-empty value that is not an object
    gives [AttributeError], and a selected message that is not text gives
    [TypeError].  No warning is reported then. *)
Theorem login_handler_raises (username password msg body : string)
    (w : world) (v : json) :
  resp_result (server w (login_request username password)) =
    inl (msg, Some (HTTPError 401 body)) ->
  json_loads body = inr v ->
  truthy v = true ->
  let w1 := after_request server w (login_request username password) in
  ((forall m, v <> JObj m) ->
     _login (Some (username, password)) w = (inl AttributeError, w1)) /\
  (forall m x, v = JObj m -> selected_message m = Some x ->
     (forall s, x <> JStr s) ->
     _login (Some (username, password)) w = (inl TypeError, w1)).
Proof.
  intros Hr Hl Ht w1.
  assert (Hrun : _login (Some (username, password)) w =
                 login_failed (Some (HTTPError 401 body)) w1).
  { unfold RoosterTeethIE._login. run.
    unfold InfoExtractor._download_json, login_request in *. simpl.
    now rewrite Hr. }
  rewrite Hrun. unfold RoosterTeethIE.login_failed, InfoExtractor._parse_json.
  rewrite Hl. run. rewrite Ht. split.
  - intros Hv. destruct v; try reflexivity. by destruct (Hv m).
  - intros m x -> Hsel Hx.
    destruct (login_error_field_selected m) as [y [Hy Hty]].
    rewrite Hy. simpl. destruct (truthy y); [|congruence].
    assert (y = x) as -> by congruence.
    destruct x; try reflexivity. by destruct (Hx s).
Qed.

End WithHost.
End LoginProperties.

(** ** More on the episode resolver *)
Module EpisodeProperties.
Import InfoExtractor RoosterTeethIE.
Import Authenticator EpisodeResolver.

(** [...['data'][0]['attributes']['url']] on the manifest response. *)
Definition manifest_url (j : json) : result json :=
  d <~ py_getitem j "data" ;;
  d0 <~ py_getitem0 d ;;
  a <~ py_getitem d0 "attributes" ;;
  py_getitem a "url".

(** A thumbnail as [_real_extract] makes them: its id is one of the tags and
    its URL holds something. *)
Definition well_formed_thumbnail (t : thumbnail) : Prop :=
  thumb_id t ∈ thumbnail_tags /\ truthy (thumb_url t) = true.

Lemma py_getitem0_error (v : json) (e : exn) :
  py_getitem0 v = inl e -> e = TypeError \/ e = IndexError \/ e = KeyError "0".
Proof.
  destruct v as [| | | |s|l|m]; simpl; try (intros [= <-]; by left).
  - destruct s; [|discriminate]. intros [= <-]. right. by left.
  - destruct l; [|discriminate]. intros [= <-]. right. by left.
  - intros [= <-]. right. by right.
Qed.

Lemma py_getitem_raises (v : json) (k : string) (e : exn) :
  py_getitem v k = inl e -> e = TypeError \/ e = KeyError k.
Proof.
  destruct v; simpl; try (intros [= <-]; by left).
  destruct (m !! k); [discriminate|]. intros [= <-]. by right.
Qed.

Lemma manifest_url_error (j : json) (e : exn) :
  manifest_url j = inl e ->
  e = TypeError \/ e = IndexError \/ exists k, e = KeyError k.
Proof.
  unfold manifest_url, rbind.
  destruct (py_getitem j "data") as [e1|d] eqn:E1.
  { intros [= <-]. destruct (py_getitem_raises _ _ _ E1) as [-> | ->]; eauto. }
  destruct (py_getitem0 d) as [e2|d0] eqn:E2.
  { intros [= <-]. destruct (py_getitem0_error _ _ E2) as [-> | [-> | ->]]; eauto. }
  destruct (py_getitem d0 "attributes") as [e3|a] eqn:E3.
  { intros [= <-]. destruct (py_getitem_raises _ _ _ E3) as [-> | ->]; eauto. }
  intros E4. destruct (py_getitem_raises _ _ _ E4) as [-> | ->]; eauto.
Qed.

Lemma tag_thumbnail_well_formed (image : json) (tag : string) :
  tag ∈ thumbnail_tags ->
  Forall well_formed_thumbnail (tag_thumbnail image tag) /\
  (length (tag_thumbnail image tag) <= 1)%nat.
Proof.
  intros Htag. unfold tag_thumbnail, image_url.
  destruct image as [| | | | | |m]; try (split; [constructor|simpl; lia]).
  destruct (m !! "attributes") as [[| | | | | |a]|];
    try (split; [constructor|simpl; lia]).
  destruct (a !! tag) as [u|]; [|split; [constructor|simpl; lia]].
  destruct (truthy u) eqn:Hu; [|split; [constructor|simpl; lia]].
  split; [|simpl; lia]. constructor; [|constructor]. by split.
Qed.

Lemma image_tags_well_formed (image : json) :
  Forall well_formed_thumbnail (flat_map (tag_thumbnail image) thumbnail_tags) /\
  (length (flat_map (tag_thumbnail image) thumbnail_tags) <= 4)%nat.
Proof.
  assert (Hin : forall tag, tag ∈ thumbnail_tags ->
            Forall well_formed_thumbnail (tag_thumbnail image tag) /\
            (length (tag_thumbnail image tag) <= 1)%nat)
    by (intros; by apply tag_thumbnail_well_formed).
  unfold thumbnail_tags in *. cbn [flat_map].
  destruct (Hin "thumb") as [A1 B1]; [apply (bool_decide_unpack _); reflexivity|].
  destruct (Hin "small") as [A2 B2]; [apply (bool_decide_unpack _); reflexivity|].
  destruct (Hin "medium") as [A3 B3]; [apply (bool_decide_unpack _); reflexivity|].
  destruct (Hin "large") as [A4 B4]; [apply (bool_decide_unpack _); reflexivity|].
  split.
  - rewrite !Forall_app. repeat split; try assumption. constructor.
  - rewrite !length_app. simpl. lia.
Qed.

Lemma spec_thumbnails_well_formed (images : list json) :
  Forall well_formed_thumbnail (spec_thumbnails images) /\
  (length (spec_thumbnails images) <=
   4 * length (List.filter is_episode_image images))%nat.
Proof.
  unfold spec_thumbnails.
  set (f := fun image => flat_map (tag_thumbnail image) thumbnail_tags).
  induction (List.filter is_episode_image images) as [|image l [IH1 IH2]].
  - split; [constructor|simpl; lia].
  - destruct (image_tags_well_formed image) as [H1 H2]. fold (f image) in H1, H2.
    cbn [flat_map]. split.
    + apply Forall_app. by split.
    + rewrite length_app. change (length (image :: l)) with (S (length l)). lia.
Qed.

Section WithHost.

Variable server : world -> request -> response.
Variable json_loads : string -> string + json.
Variable _match_id : string -> string -> string.
Variable format : Type.
Variable _extract_m3u8_formats : json -> string -> M (list format).
Variable _sort_formats : list format -> M (list format).
Variable compat_str : json -> string.

Abbreviation download_m3u8_url := (download_m3u8_url server json_loads).
Abbreviation download_episode :=
  (download_episode server json_loads format _extract_m3u8_formats _sort_formats).
Abbreviation episode_info := (episode_info format compat_str).
Abbreviation _real_extract :=
  (_real_extract server json_loads _match_id format _extract_m3u8_formats
     _sort_formats compat_str).

(** X5: a manifest response of the wrong shape (no [data], an empty [data],
    no [attributes] or [url]) makes [_real_extract] raise the lookup error
    itself, a [KeyError], [IndexError] or [TypeError]: the handler of fetch
    errors does not see it, and the metadata is not requested. *)
Theorem malformed_manifest_raises (url : string) (w : world) (j : json) (e : exn) :
  let d := _match_id _VALID_URL url in
  resp_result (server w (manifest_request d)) = inr j ->
  manifest_url j = inl e ->
  _real_extract url w = (inl e, after_request server w (manifest_request d)) /\
  (e = TypeError \/ e = IndexError \/ exists k, e = KeyError k).
Proof.
  intros d Hr He. pose proof (manifest_url_error j e He) as Hk.
  split; [|exact Hk].
  apply real_extract_manifest_error. fold d.
  unfold RoosterTeethIE.download_m3u8_url. run.
  unfold InfoExtractor._download_json, manifest_request in *. simpl.
  rewrite Hr. unfold manifest_url, rbind in He. rewrite He.
  by destruct Hk as [-> | [-> | [k ->]]].
Qed.

(** X6: an HTTP 403 whose body parses to something that is not an object
    (a list, a string, a number, null) makes [_real_extract] raise
    [AttributeError]: neither the members-only error nor the fetch error. *)
Theorem forbidden_body_not_object (url : string) (w : world) (msg body : string)
    (v : json) :
  let d := _match_id _VALID_URL url in
  resp_result (server w (manifest_request d)) =
    inl (msg, Some (HTTPError 403 body)) ->
  json_loads body = inr v ->
  (forall m, v <> JObj m) ->
  _real_extract url w =
    (inl AttributeError, after_request server w (manifest_request d)).
Proof.
  intros d Hr Hl Hv. apply real_extract_manifest_error. fold d.
  rewrite (manifest_failure_handled server json_loads d w msg _ Hr).
  unfold manifest_failed, InfoExtractor._parse_json. rewrite Hl. run.
  destruct v; try reflexivity. by destruct (Hv m).
Qed.

(** X7: every thumbnail of a returned record has one of the four tags as
    its id and a URL that holds something, and there are at most four
    thumbnails for each image of type "episode_image". *)
Theorem thumbnails_well_formed (url : string) (w w' : world)
    (r : info_dict format) :
  _real_extract url w = (inr r, w') ->
  Forall well_formed_thumbnail (thumbnails r) /\
  exists formats episode images,
    download_episode (_match_id _VALID_URL url) w = (inr (formats, episode), w') /\
    episode_images episode = inr images /\
    (length (thumbnails r) <= 4 * length (List.filter is_episode_image images))%nat.
Proof.
  intros H.
  destruct (real_extract_returns server json_loads _match_id format
              _extract_m3u8_formats _sort_formats compat_str url w w' r H)
    as [formats [episode [Hd Hi]]].
  pose proof (episode_info_thumbnails format compat_str _ _ _ _ Hi) as Ht.
  rewrite episode_thumbnails_images in Ht. unfold rbind in Ht.
  destruct (episode_images episode) as [e|images] eqn:E; [discriminate|].
  rewrite (for_each_image_thumbnails images _ Ht).
  destruct (spec_thumbnails_well_formed images) as [H1 H2].
  split; [exact H1|]. by exists formats, episode, images.
Qed.

(** X8: the thumbnails of an episode without [included], or whose
    [included] has no [images], are empty; but an [included] that is null
    makes the episode fail with [AttributeError], and [images] that are
    null with [TypeError], for the defaults only stand for a missing key. *)
Theorem included_missing_or_null (d : string) (formats : list format)
    (e a : gmap string json) (i : json) :
  e !! "attributes" = Some (JObj a) ->
  truthy (attr a "title") = true ->
  e !! "id" = Some i ->
  (e !! "included" = None ->
     exists r, episode_info d formats (JObj e) = inr r /\ thumbnails r = []) /\
  (forall inc, e !! "included" = Some (JObj inc) -> inc !! "images" = None ->
     exists r, episode_info d formats (JObj e) = inr r /\ thumbnails r = []) /\
  (e !! "included" = Some JNull ->
     episode_info d formats (JObj e) = inl AttributeError) /\
  (forall inc, e !! "included" = Some (JObj inc) -> inc !! "images" = Some JNull ->
     episode_info d formats (JObj e) = inl TypeError).
Proof.
  intros Ha Ht Hi.
  rewrite (episode_info_dict format compat_str d formats e a Ha), Ht.
  unfold rbind, py_getitem. rewrite Hi.
  unfold episode_thumbnails, py_get_default, rbind.
  split; [|split; [|split]].
  - intros ->. simpl. rewrite lookup_empty. simpl. by eexists.
  - intros inc Hinc Himg. rewrite Hinc. simpl. rewrite Himg. simpl. by eexists.
  - by intros ->.
  - intros inc Hinc Himg. rewrite Hinc. simpl. by rewrite Himg.
Qed.

End WithHost.
End EpisodeProperties.

(** ** More on the series resolver *)
Module SeriesProperties.
Import InfoExtractor RoosterTeethSeriesIE.
Import Authenticator SeriesResolver.

(** A page reference: a link behind the site domain. *)
Definition on_domain (entry : string) : Prop :=
  exists l, entry = domain +:+ l.

Lemma for_each_link_entry_on_domain (ds : list json) (es : list string) :
  for_each link_entry ds = inr es -> Forall on_domain es.
Proof.
  revert es. induction ds as [|d ds IH]; intros es; simpl.
  - intros [= <-]. constructor.
  - destruct (link_entry d) as [e|ys] eqn:E1; [discriminate|].
    destruct (for_each link_entry ds) as [e|zs]; [discriminate|].
    intros [= <-]. apply Forall_app. split; [|by apply IH].
    unfold link_entry, rbind in E1.
    destruct (py_getitem d "canonical_links") as [?|c]; [discriminate|].
    destruct (py_getitem c "self") as [?|x]; [discriminate|].
    destruct x; try discriminate. injection E1 as <-.
    constructor; [by eexists|constructor].
Qed.

Lemma for_eachM_cons {A B} (body : A -> M (list B)) (x : A) (l : list A)
    (w : world) :
  for_eachM body (x :: l) w =
  match body x w with
  | (inr ys, w1) =>
      match for_eachM body l w1 with
      | (inr zs, w2) => (inr (ys ++ zs), w2)
      | (inl e, w2) => (inl e, w2)
      end
  | (inl e, w1) => (inl e, w1)
  end.
Proof.
  cbn [for_eachM]. unfold bind at 1.
  destruct (body x w) as [[e|ys] w1]; reflexivity.
Qed.

Lemma for_eachM_Forall {A B} (P : B -> Prop) (body : A -> M (list B)) :
  (forall x w ys w', body x w = (inr ys, w') -> Forall P ys) ->
  forall l w ys w', for_eachM body l w = (inr ys, w') -> Forall P ys.
Proof.
  intros Hb. induction l as [|x l IH]; intros w ys w'.
  - intros [= <- _]. constructor.
  - rewrite for_eachM_cons.
    destruct (body x w) as [[e|xs] w1] eqn:E1; [discriminate|].
    destruct (for_eachM body l w1) as [[e|zs] w2] eqn:E2; [discriminate|].
    intros [= <- _]. apply Forall_app. split; [by eapply Hb|by eapply IH].
Qed.

Lemma for_eachM_abort {A B} (body : A -> M (list B)) (l1 l2 : list A) (x : A)
    (w w1 w2 : world) (es : list B) (e : exn) :
  for_eachM body l1 w = (inr es, w1) ->
  body x w1 = (inl e, w2) ->
  for_eachM body (l1 ++ x :: l2) w = (inl e, w2).
Proof.
  revert w es. induction l1 as [|y l1 IH]; intros w es.
  - intros [= _ <-] Hx. cbn [app]. by rewrite for_eachM_cons, Hx.
  - rewrite <- app_comm_cons, !for_eachM_cons.
    destruct (body y w) as [[?|ys] w3]; [discriminate|].
    destruct (for_eachM body l1 w3) as [[?|zs] w4] eqn:E; [discriminate|].
    intros [= _ <-] Hx. by rewrite (IH w3 zs E Hx).
Qed.

Section WithHost.

Variable server : world -> request -> response.
Variable _match_id : string -> string -> string.
Variable urlparse : string -> ParseResult.
Variable parse_qs : string -> list (string * list string).
Variable urlencode : list (string * list string) -> string.
Variable urlunparse : ParseResult -> string.
Variable url_ref : Type.
Variable url_result : string -> url_ref.

Abbreviation page_url := (page_url urlparse parse_qs urlencode urlunparse).
Abbreviation season_page :=
  (season_page server urlparse parse_qs urlencode urlunparse).
Abbreviation get_season_episodes_pages :=
  (get_season_episodes_pages server urlparse parse_qs urlencode urlunparse).
Abbreviation season_entries :=
  (season_entries server urlparse parse_qs urlencode urlunparse).
Abbreviation _real_extract :=
  (_real_extract server _match_id urlparse parse_qs urlencode urlunparse
     url_ref url_result).
Abbreviation page_request :=
  (page_request urlparse parse_qs urlencode urlunparse).
Abbreviation after_pages :=
  (after_pages server urlparse parse_qs urlencode urlunparse).
Abbreviation walk_unfold :=
  (walk_unfold server urlparse parse_qs urlencode urlunparse).

(** What an activation does after its request was answered with [j]. *)
Definition page_outcome (page : Z) (j : json) : result (list string * bool) :=
  p <~ py_getitem j "page" ;;
  _ <~ (if py_eq_int page p then inr tt else inl AssertionError) ;;
  data <~ py_getitem j "data" ;;
  links <~ py_iter data ;;
  entries <~ for_each link_entry links ;;
  p' <~ py_getitem j "page" ;;
  tp <~ py_getitem j "total_pages" ;;
  more <~ py_lt p' tp ;;
  inr (entries, more).

(** An activation for a season with a text slug: one request, then the
    fetch error or the outcome of the answer. *)
Lemma season_page_request (link slug : string) (p : Z) (w : world) :
  season_page link (JStr slug) p w =
  (match resp_result (server w (page_request link slug p)) with
   | inl (msg, c) => inl (ExtractorError msg c)
   | inr j => page_outcome p j
   end,
   after_request server w (page_request link slug p)).
Proof.
  unfold RoosterTeethSeriesIE.season_page, page_outcome. run.
  unfold InfoExtractor._download_json, SeriesResolver.page_request. simpl.
  destruct (resp_result _) as [[msg c]|j]; [reflexivity|]. simpl.
  destruct (py_getitem j "page") as [?|p0]; [reflexivity|]. simpl.
  destruct (py_eq_int p p0); [|reflexivity]. simpl.
  destruct (py_getitem j "data") as [?|data]; [reflexivity|]. simpl.
  destruct (py_iter data) as [?|links]; [reflexivity|]. simpl.
  destruct (for_each link_entry links) as [?|entries]; [reflexivity|]. simpl.
  destruct (py_getitem j "total_pages") as [?|tp]; [reflexivity|]. simpl.
  by destruct (py_lt p0 tp).
Qed.

(** X9: whatever the backend answers, the walk of a season with a text
    slug requests consecutive pages starting from its page, each once and in
    order, and at most as many as the recursion depth allows; a walk that
    returns has requested at least one page. *)
Theorem walk_requests_consecutive (fuel : nat) (link slug : string) :
  forall n w, exists k,
    0 <= k <= Z.of_nat fuel /\
    log (get_season_episodes_pages fuel link (JStr slug) (Some n) w).2 =
      log w ++ (page_request link slug <$> seqZ n k) /\
    (forall es, (get_season_episodes_pages fuel link (JStr slug) (Some n) w).1 = inr es ->
       1 <= k).
Proof.
  induction fuel as [|fuel IH]; intros n w.
  - exists 0. split; [lia|]. split; [simpl; by rewrite app_nil_r|]. discriminate.
  - rewrite walk_unfold, season_page_request.
    set (w1 := after_request server w (page_request link slug n)).
    assert (Hone : log w1 = log w ++ (page_request link slug <$> seqZ n 1))
      by reflexivity.
    destruct (match resp_result _ with inl _ => _ | inr _ => _ end)
      as [e|[es [|]]].
    + exists 1. split; [lia|]. split; [exact Hone|]. discriminate.
    + destruct (IH (n + 1) w1) as (k & Hk & Hlog & Hret).
      exists (k + 1). split; [lia|]. split.
      * destruct (get_season_episodes_pages fuel link (JStr slug) (Some (n + 1)) w1)
          as [[e'|rest] w2]; simpl in *;
          rewrite Hlog; unfold w1; simpl;
          rewrite (seqZ_cons n (k + 1)) by lia;
          rewrite <- app_assoc, fmap_cons; simpl;
          by replace (Z.pred (k + 1)) with k by lia.
      * intros _ _. lia.
    + exists 1. split; [lia|]. split; [exact Hone|]. intros _ _. lia.
Qed.

Lemma season_page_on_domain (link : string) (slug : json) (p : Z) (w w' : world)
    (es : list string) (more : bool) :
  season_page link slug p w = (inr (es, more), w') -> Forall on_domain es.
Proof.
  unfold RoosterTeethSeriesIE.season_page. run.
  destruct (page_video_id slug p) as [?|vid]; [discriminate|]. simpl.
  unfold InfoExtractor._download_json. simpl.
  destruct (resp_result _) as [[msg c]|j]; [discriminate|]. simpl.
  destruct (py_getitem j "page") as [?|p0]; [discriminate|]. simpl.
  destruct (py_eq_int p p0); [|discriminate]. simpl.
  destruct (py_getitem j "data") as [?|data]; [discriminate|]. simpl.
  destruct (py_iter data) as [?|links]; [discriminate|]. simpl.
  destruct (for_each link_entry links) as [?|entries] eqn:E; [discriminate|]. simpl.
  destruct (py_getitem j "total_pages") as [?|tp]; [discriminate|]. simpl.
  destruct (py_lt p0 tp); [discriminate|]. simpl.
  intros [= <- _ _]. by apply (for_each_link_entry_on_domain links).
Qed.

Lemma walk_on_domain (fuel : nat) (link : string) (slug : json) :
  forall page w es w',
    get_season_episodes_pages fuel link slug page w = (inr es, w') ->
    Forall on_domain es.
Proof.
  induction fuel as [|fuel IH]; intros page w es w'; [discriminate|].
  assert (Hn : exists n, get_season_episodes_pages (S fuel) link slug page w =
                         get_season_episodes_pages (S fuel) link slug (Some n) w).
  { destruct page as [n|]; [by exists n|exists 1; apply walk_default]. }
  destruct Hn as [n ->]. rewrite walk_unfold.
  destruct (season_page link slug n w) as [[e|[es0 [|]]] w1] eqn:E1;
    [discriminate| |].
  - destruct (get_season_episodes_pages fuel link slug (Some (n + 1)) w1)
      as [[e|rest] w2] eqn:E2; [discriminate|].
    intros [= <- _]. apply Forall_app. split.
    + by eapply season_page_on_domain.
    + by eapply IH.
  - intros [= <- _]. by eapply season_page_on_domain.
Qed.

(** The part of [_real_extract] before the seasons are walked: the show and
    the listing of its seasons. *)
Definition show_and_seasons (show_id : string) : M (json * list json) :=
  series <- _download_json server (api_domain +:+ "/api/v1/shows/" +:+ show_id)
              (Some show_id) None ;;
  data0 <- lift (d <~ py_getitem series "data" ;; py_getitem0 d) ;;
  seasons_url <- lift (l <~ py_getitem data0 "links" ;;
                       s <~ py_getitem l "seasons" ;;
                       py_str_add api_domain s) ;;
  seasons <- _download_json server seasons_url (Some (show_id +:+ "_seasons")) None ;;
  sd <- lift (py_getitem seasons "data") ;;
  sl <- lift (py_iter sd) ;;
  ret (data0, sl).

Lemma real_extract_phases (fuel : nat) (url : string) (w : world) :
  _real_extract fuel url w =
  (let show_id := _match_id _VALID_URL url in
   p <- show_and_seasons show_id ;;
   entries <- for_eachM (season_entries fuel) p.2 ;;
   title <- lift (a <~ py_getitem p.1 "attributes" ;; py_getitem a "title") ;;
   ret (mkPlaylist url_ref "playlist" show_id title (url_result <$> entries))) w.
Proof.
  unfold RoosterTeethSeriesIE._real_extract, show_and_seasons.
  unfold bind, lift, ret. cbv beta zeta.
  destruct (_download_json server _ _ None w) as [[e|series] w1]; [reflexivity|].
  destruct (d <~ py_getitem series "data";; py_getitem0 d) as [e|data0];
    [reflexivity|].
  destruct (l <~ py_getitem data0 "links";; _) as [e|seasons_url]; [reflexivity|].
  destruct (_download_json server seasons_url _ None w1) as [[e|seasons] w2];
    [reflexivity|].
  destruct (py_getitem seasons "data") as [e|sd]; [reflexivity|].
  destruct (py_iter sd) as [e|sl]; reflexivity.
Qed.

Lemma season_entries_on_domain (fuel : nat) (season : json) (w : world)
    (es : list string) (w' : world) :
  season_entries fuel season w = (inr es, w') -> Forall on_domain es.
Proof.
  unfold RoosterTeethSeriesIE.season_entries. unfold bind, lift.
  destruct (l <~ py_getitem season "links";; _) as [?|ep_link]; [discriminate|].
  destruct (a <~ py_getitem season "attributes";; _) as [?|slug]; [discriminate|].
  apply walk_on_domain.
Qed.

(** X10: every reference the walk of a season returns, and every entry of a
    returned playlist, is a link behind the site domain
    "https://roosterteeth.com", whatever the backend answered; the playlist
    has the type "playlist" and the id matched in the URL. *)
Theorem entries_on_domain :
  (forall fuel link slug page w es w',
     get_season_episodes_pages fuel link slug page w = (inr es, w') ->
     Forall on_domain es) /\
  (forall fuel url w pl w',
     _real_extract fuel url w = (inr pl, w') ->
     _type pl = "playlist" /\
     id pl = _match_id _VALID_URL url /\
     exists es, entries pl = url_result <$> es /\ Forall on_domain es).
Proof.
  split; [apply walk_on_domain|].
  intros fuel url w pl w'. rewrite real_extract_phases. cbv zeta.
  unfold bind at 1.
  destruct (show_and_seasons _ w) as [[e|[data0 sl]] w1]; [discriminate|].
  unfold bind at 1. cbn [fst snd].
  destruct (for_eachM (season_entries fuel) sl w1) as [[e|es] w2] eqn:E;
    [discriminate|].
  unfold bind, lift, ret.
  destruct (a <~ py_getitem data0 "attributes";; _) as [e|title]; [discriminate|].
  intros [= <- _]. simpl. split; [done|]. split; [done|].
  exists es. split; [done|].
  apply (for_eachM_Forall on_domain (season_entries fuel)
           (season_entries_on_domain fuel) sl w1 es w2 E).
Qed.

(** The backend always declares more pages than the page asked for, on the
    pages from [lo] up to, and without, [hi]. *)
Definition growing_backend (link slug : string) (lo hi : Z) : Prop :=
  forall w p, lo <= p < hi ->
    exists j tp ls,
      resp_result (server w (page_request link slug p)) = inr j /\
      is_page j p tp ls /\ p < tp.

(** X11: against a backend whose total is always ahead of the page asked
    for, the walk does not return: it requests one page for each level of
    recursion it is allowed and ends in [RecursionError], and the entries
    read on the way are lost. *)
Theorem walk_exhausts_recursion (link slug : string) (fuel : nat) :
  forall n w,
    growing_backend link slug n (n + Z.of_nat fuel) ->
    get_season_episodes_pages fuel link (JStr slug) (Some n) w =
      (inl RecursionError, after_pages link slug w (seqZ n (Z.of_nat fuel))).
Proof.
  induction fuel as [|fuel IH]; intros n w Hg; [reflexivity|].
  rewrite walk_unfold.
  destruct (Hg w n ltac:(lia)) as (j & tp & ls & Hr & Hp & Hlt).
  rewrite (season_page_stable server urlparse parse_qs urlencode urlunparse
             link slug n tp ls w j Hr Hp).
  apply Z.ltb_lt in Hlt. rewrite Hlt.
  rewrite (IH (n + 1)).
  - rewrite (after_pages_cons server urlparse parse_qs urlencode urlunparse
               link slug w n (Z.of_nat (S fuel))) by lia.
    by replace (Z.of_nat (S fuel) - 1) with (Z.of_nat fuel) by lia.
  - intros w' p Hp'. apply Hg. lia.
Qed.

Lemma show_and_seasons_first (show_id : string) (w : world) :
  show_and_seasons show_id w =
  match resp_result (server w (show_request show_id)) with
  | inl (msg, c) =>
      (inl (ExtractorError msg c), after_request server w (show_request show_id))
  | inr j =>
      match d <~ py_getitem j "data" ;; py_getitem0 d with
      | inl e => (inl e, after_request server w (show_request show_id))
      | inr data0 =>
          (seasons_url <- lift (l <~ py_getitem data0 "links" ;;
                                s <~ py_getitem l "seasons" ;;
                                py_str_add api_domain s) ;;
           seasons <- _download_json server seasons_url
                        (Some (show_id +:+ "_seasons")) None ;;
           sd <- lift (py_getitem seasons "data") ;;
           sl <- lift (py_iter sd) ;;
           ret (data0, sl)) (after_request server w (show_request show_id))
      end
  end.
Proof.
  unfold show_and_seasons. unfold bind at 1.
  unfold InfoExtractor._download_json at 1, show_request. simpl.
  destruct (resp_result _) as [[msg c]|j]; [reflexivity|].
  unfold bind at 1, lift at 1.
  by destruct (d <~ py_getitem j "data";; py_getitem0 d).
Qed.

Lemma real_extract_show_error (fuel : nat) (url : string) (w w1 : world) (e : exn) :
  show_and_seasons (_match_id _VALID_URL url) w = (inl e, w1) ->
  _real_extract fuel url w = (inl e, w1).
Proof.
  intros H. rewrite real_extract_phases. cbv zeta. unfold bind at 1.
  by rewrite H.
Qed.

(** X12: when the show cannot be looked up, [_real_extract] stops after its
    first request: a fetch error is raised as it is, a response whose
    [data] is empty (no such show) raises [IndexError], and a response
    without [data] raises [KeyError]. *)
Theorem show_lookup_fails (fuel : nat) (url : string) (w : world) :
  let show_id := _match_id _VALID_URL url in
  let w1 := after_request server w (show_request show_id) in
  (forall msg c,
     resp_result (server w (show_request show_id)) = inl (msg, c) ->
     _real_extract fuel url w = (inl (ExtractorError msg c), w1)) /\
  (forall j,
     resp_result (server w (show_request show_id)) = inr j ->
     py_getitem j "data" = inr (JArr []) ->
     _real_extract fuel url w = (inl IndexError, w1)) /\
  (forall m,
     resp_result (server w (show_request show_id)) = inr (JObj m) ->
     m !! "data" = None ->
     _real_extract fuel url w = (inl (KeyError "data"), w1)).
Proof.
  intros show_id w1. split; [|split].
  - intros msg c Hr. apply real_extract_show_error. fold show_id.
    by rewrite show_and_seasons_first, Hr.
  - intros j Hr Hd. apply real_extract_show_error. fold show_id.
    rewrite show_and_seasons_first, Hr. unfold rbind. by rewrite Hd.
  - intros m Hr Hd. apply real_extract_show_error. fold show_id.
    rewrite show_and_seasons_first, Hr. unfold rbind, py_getitem. by rewrite Hd.
Qed.

(** X13: a season whose walk fails makes the whole of [_real_extract] fail
    with that error, at the world the failure left: the entries of the
    seasons before it are not returned and the seasons after it are not
    requested. *)
Theorem season_failure_aborts (fuel : nat) (url : string) (w w2 w3 w4 : world)
    (data0 season : json) (ss1 ss2 : list json) (es : list string) (e : exn) :
  show_and_seasons (_match_id _VALID_URL url) w =
    (inr (data0, ss1 ++ season :: ss2), w2) ->
  for_eachM (season_entries fuel) ss1 w2 = (inr es, w3) ->
  season_entries fuel season w3 = (inl e, w4) ->
  _real_extract fuel url w = (inl e, w4).
Proof.
  intros Hs H1 H2. rewrite real_extract_phases. cbv zeta. unfold bind at 1.
  rewrite Hs. unfold bind at 1. cbn [fst snd].
  by rewrite (for_eachM_abort (season_entries fuel) ss1 ss2 season w2 w3 w4 es e H1 H2).
Qed.

(** X14: a page response that lacks one of its fields makes the walk fail
    with the [KeyError] of that field, after one request: [page] is looked
    up first, then [data], and [total_pages] only after every entry of the
    page was read. *)
Theorem page_missing_field (fuel : nat) (link slug : string) (p : Z) (w : world)
    (m : gmap string json) :
  resp_result (server w (page_request link slug p)) = inr (JObj m) ->
  let w1 := after_request server w (page_request link slug p) in
  (m !! "page" = None ->
     get_season_episodes_pages (S fuel) link (JStr slug) (Some p) w =
       (inl (KeyError "page"), w1)) /\
  (m !! "page" = Some (JInt p) -> m !! "data" = None ->
     get_season_episodes_pages (S fuel) link (JStr slug) (Some p) w =
       (inl (KeyError "data"), w1)) /\
  (forall ds ls,
     m !! "page" = Some (JInt p) -> m !! "data" = Some (JArr ds) ->
     Forall2 is_link ds ls -> m !! "total_pages" = None ->
     get_season_episodes_pages (S fuel) link (JStr slug) (Some p) w =
       (inl (KeyError "total_pages"), w1)).
Proof.
  intros Hr w1. rewrite walk_unfold, season_page_request, Hr. fold w1.
  unfold page_outcome, rbind, py_getitem. split; [|split].
  - by intros ->.
  - intros -> ->. by rewrite py_eq_int_refl.
  - intros ds ls -> -> Hl ->. rewrite py_eq_int_refl. simpl.
    by rewrite (for_each_links ds ls Hl).
Qed.

(** The log of [w'] is the log of [w] and at most [n] further requests. *)
Definition sends_at_most (n : nat) (w w' : world) : Prop :=
  exists l, log w' = log w ++ l /\ (length l <= n)%nat.

Lemma sends_at_most_refl (n : nat) (w : world) : sends_at_most n w w.
Proof. exists []. split; [by rewrite app_nil_r|simpl; lia]. Qed.

Lemma sends_at_most_trans (n1 n2 n : nat) (w1 w2 w3 : world) :
  sends_at_most n1 w1 w2 -> sends_at_most n2 w2 w3 -> (n1 + n2 <= n)%nat ->
  sends_at_most n w1 w3.
Proof.
  intros (l1 & H1 & B1) (l2 & H2 & B2) Hn. exists (l1 ++ l2). split.
  - by rewrite H2, H1, app_assoc.
  - rewrite length_app. lia.
Qed.

Lemma download_sends_one (url : string) (vid : option string) (w : world) :
  sends_at_most 1 w (_download_json server url vid None w).2.
Proof.
  exists [mkRequest url vid None]. split; [|simpl; lia].
  unfold InfoExtractor._download_json.
  by destruct (resp_result _) as [[msg c]|j].
Qed.

Lemma season_page_sends_one (link : string) (slug : json) (p : Z) (w : world) :
  sends_at_most 1 w (season_page link slug p w).2.
Proof.
  destruct slug as [| | | |s| |];
    try (unfold RoosterTeethSeriesIE.season_page; run; apply sends_at_most_refl).
  rewrite season_page_request. exists [page_request link s p].
  split; [reflexivity|simpl; lia].
Qed.

Lemma walk_sends_at_most (fuel : nat) (link : string) (slug : json) :
  forall page w,
    sends_at_most fuel w (get_season_episodes_pages fuel link slug page w).2.
Proof.
  induction fuel as [|fuel IH]; intros page w; [apply sends_at_most_refl|].
  assert (Hn : exists n, get_season_episodes_pages (S fuel) link slug page w =
                         get_season_episodes_pages (S fuel) link slug (Some n) w).
  { destruct page as [n|]; [by exists n|exists 1; apply walk_default]. }
  destruct Hn as [n ->]. rewrite walk_unfold.
  pose proof (season_page_sends_one link slug n w) as H1.
  destruct (season_page link slug n w) as [[e|[es [|]]] w1]; simpl in H1.
  - eapply sends_at_most_trans; [exact H1|apply (sends_at_most_refl 0%nat)|lia].
  - pose proof (IH (Some (n + 1)) w1) as H2.
    destruct (get_season_episodes_pages fuel link slug (Some (n + 1)) w1)
      as [[e|rest] w2]; simpl in H2;
      (eapply sends_at_most_trans; [exact H1|exact H2|lia]).
  - eapply sends_at_most_trans; [exact H1|apply (sends_at_most_refl 0%nat)|lia].
Qed.

Lemma season_entries_sends_at_most (fuel : nat) (season : json) (w : world) :
  sends_at_most fuel w (season_entries fuel season w).2.
Proof.
  unfold RoosterTeethSeriesIE.season_entries. unfold bind, lift.
  destruct (l <~ py_getitem season "links";; _) as [?|ep_link];
    [apply sends_at_most_refl|].
  destruct (a <~ py_getitem season "attributes";; _) as [?|slug];
    [apply sends_at_most_refl|].
  apply walk_sends_at_most.
Qed.

Lemma seasons_send_at_most (fuel : nat) (sl : list json) :
  forall w, sends_at_most (length sl * fuel) w
              (for_eachM (season_entries fuel) sl w).2.
Proof.
  induction sl as [|season sl IH]; intros w; [apply sends_at_most_refl|].
  rewrite for_eachM_cons.
  pose proof (season_entries_sends_at_most fuel season w) as H1.
  destruct (season_entries fuel season w) as [[e|ys] w1]; simpl in H1.
  - eapply sends_at_most_trans; [exact H1|apply (sends_at_most_refl 0%nat)|simpl; lia].
  - pose proof (IH w1) as H2.
    destruct (for_eachM (season_entries fuel) sl w1) as [[e|zs] w2]; simpl in H2;
      (eapply sends_at_most_trans; [exact H1|exact H2|simpl; lia]).
Qed.

Lemma show_and_seasons_sends_two (show_id : string) (w : world) :
  sends_at_most 2 w (show_and_seasons show_id w).2.
Proof.
  unfold show_and_seasons. unfold bind at 1.
  pose proof (download_sends_one (api_domain +:+ "/api/v1/shows/" +:+ show_id)
                (Some show_id) w) as H1.
  destruct (_download_json server _ _ None w) as [[e|series] w1]; simpl in H1.
  { eapply sends_at_most_trans; [exact H1|apply (sends_at_most_refl 0%nat)|lia]. }
  unfold bind at 1, lift at 1.
  destruct (d <~ py_getitem series "data";; py_getitem0 d) as [e|data0].
  { eapply sends_at_most_trans; [exact H1|apply (sends_at_most_refl 0%nat)|lia]. }
  unfold bind at 1, lift at 1.
  destruct (l <~ py_getitem data0 "links";; _) as [e|seasons_url].
  { eapply sends_at_most_trans; [exact H1|apply (sends_at_most_refl 0%nat)|lia]. }
  unfold bind at 1.
  pose proof (download_sends_one seasons_url (Some (show_id +:+ "_seasons")) w1) as H2.
  destruct (_download_json server seasons_url _ None w1) as [[e|seasons] w2];
    simpl in H2.
  { eapply sends_at_most_trans; [exact H1|exact H2|lia]. }
  unfold bind, lift, ret.
  destruct (py_getitem seasons "data") as [e|sd];
    [eapply sends_at_most_trans; [exact H1|exact H2|lia]|].
  destruct (py_iter sd) as [e|sl];
    eapply sends_at_most_trans; [exact H1|exact H2|lia|exact H1|exact H2|lia].
Qed.

(** The seasons the listing of a show holds in a world, none when the show
    or the listing cannot be read. *)
Definition listed_seasons (show_id : string) (w : world) : list json :=
  match (show_and_seasons show_id w).1 with
  | inr p => p.2
  | inl _ => []
  end.

(** X15: whatever the backend answers, [_real_extract] only adds requests
    to the log, and at most two (the show and its seasons) and, for each
    season of the listing, as many as the recursion depth allows. *)
Theorem series_request_bound (fuel : nat) (url : string) (w : world) :
  sends_at_most
    (2 + length (listed_seasons (_match_id _VALID_URL url) w) * fuel)
    w (_real_extract fuel url w).2.
Proof.
  rewrite real_extract_phases. cbv zeta. unfold listed_seasons.
  unfold bind at 1.
  pose proof (show_and_seasons_sends_two (_match_id _VALID_URL url) w) as H1.
  destruct (show_and_seasons _ w) as [[e|[data0 sl]] w1]; simpl in H1 |- *.
  { eapply sends_at_most_trans; [exact H1|apply (sends_at_most_refl 0%nat)|lia]. }
  unfold bind at 1.
  pose proof (seasons_send_at_most fuel sl w1) as H2.
  destruct (for_eachM (season_entries fuel) sl w1) as [[e|es] w2]; simpl in H2.
  { eapply sends_at_most_trans; [exact H1|exact H2|lia]. }
  unfold bind, lift, ret.
  destruct (a <~ py_getitem data0 "attributes";; _) as [e|title];
    (eapply sends_at_most_trans; [exact H1|exact H2|lia]).
Qed.

End WithHost.
End SeriesProperties.

(** * The further properties on a second backend *)
Module MoreExamples.
Import InfoExtractor Sample Authenticator EpisodeResolver SeriesResolver.
Import QueryString LoginProperties EpisodeProperties SeriesProperties.

Definition api : string := RoosterTeethSeriesIE.api_domain.

(** A 403 body that is a JSON list. *)
Definition body_list : string :=
  "[" +:+ dq +:+ "denied" +:+ dq +:+ "]".

Definition json_loads (s : string) : string + json :=
  if String.eqb s body_list then inr (JArr [JStr "denied"])
  else Sample.json_loads s.

(** Season s9 always declares nine pages; season s7 forgets [total_pages];
    season sx does not exist. *)
Definition s9_link : string := "/api/v1/seasons/s9/episodes".
Definition s7_link : string := "/api/v1/seasons/s7/episodes".
Definition sx_link : string := "/api/v1/seasons/sx/episodes".

Definition season (slug link : string) : json :=
  obj [("attributes", obj [("slug", JStr slug)]);
       ("links", obj [("episodes", JStr link)])].

Definition show_of (title seasons_link : string) : json :=
  obj [("data", JArr [obj [("attributes", obj [("title", JStr title)]);
                           ("links", obj [("seasons", JStr seasons_link)])]])].

Definition page_without_total : gmap string json :=
  list_to_map [("page", JInt 1); ("data", JArr [])].

(** The backend: the sample one, and more shows, seasons and episodes. *)
Definition server (w : world) (rq : request) : response :=
  let url := req_url rq in
  let ep := RoosterTeethIE._EPISODE_BASE_URL in
  if String.eqb url (ep +:+ "broken/videos") then ok (obj [("data", JArr [])])
  else if String.eqb url (ep +:+ "listed/videos") then forbidden body_list
  else if String.eqb url (api +:+ "/api/v1/shows/unknown") then ok (obj [("data", JArr [])])
  else if String.eqb url (api +:+ "/api/v1/shows/halved") then
    ok (show_of "Halved" "/api/v1/shows/halved/seasons")
  else if String.eqb url (api +:+ "/api/v1/shows/halved/seasons") then
    ok (obj [("data", JArr [season "s1" s1_link; season "sx" sx_link])])
  else if String.eqb url (page_url (api +:+ s9_link) 1) then ok (page 1 9 ["/episode/k"])
  else if String.eqb url (page_url (api +:+ s9_link) 2) then ok (page 2 9 ["/episode/l"])
  else if String.eqb url (page_url (api +:+ s7_link) 1) then ok (JObj page_without_total)
  else Sample.server auth_ok w rq.

Abbreviation episode_extract :=
  (RoosterTeethIE._real_extract server json_loads _match_id string
     _extract_m3u8_formats _sort_formats compat_str).

Abbreviation season_walk :=
  (RoosterTeethSeriesIE.get_season_episodes_pages server urlparse parse_qs
     urlencode urlunparse).

Abbreviation series_extract :=
  (RoosterTeethSeriesIE._real_extract server _match_id urlparse parse_qs
     urlencode urlunparse string (fun url => url)).

Abbreviation page_request :=
  (SeriesResolver.page_request urlparse parse_qs urlencode urlunparse).

(** ** The query string helpers *)

Definition paged_link : string := "https://x/y?a=b&page=7".


Example set_query_string_replaces :
  RoosterTeethSeriesIE._set_query_string urlparse parse_qs urlencode urlunparse
    paged_link "page" 2 = "https://x/y?a=b&page=2".
Proof. vm_compute. reflexivity. Qed.


(** ** The authenticator *)

Lemma login_single_request_witness :
  log (RoosterTeethIE._login (Sample.server auth_ok) Sample.json_loads
         (Some ("u", "p")) w0).2 = log w0 ++ [login_request "u" "p"] /\
  RoosterTeethIE._login (Sample.server auth_ok) Sample.json_loads
    (Some ("u", "p")) w0 =
    (inr tt, after_request (Sample.server auth_ok) w0 (login_request "u" "p")).
Proof.
  destruct (login_single_request (Sample.server auth_ok) Sample.json_loads
              "u" "p" w0) as (H1 & _ & H3).
  split; [exact H1|].
  apply (H3 (obj [("access_token", JStr "t0k3n")])). vm_compute. reflexivity.
Defined.

Lemma login_handler_raises_witness :
  RoosterTeethIE._login (Sample.server (auth_error 401 body_code)) Sample.json_loads
    (Some ("u", "p")) w0 =
  (inl TypeError,
   after_request (Sample.server (auth_error 401 body_code)) w0 (login_request "u" "p")).
Proof.
  destruct (login_handler_raises (Sample.server (auth_error 401 body_code))
              Sample.json_loads "u" "p" "HTTP Error" body_code w0
              (obj [("error", JInt 400)])
              ltac:(vm_compute; reflexivity) ltac:(vm_compute; reflexivity)
              ltac:(vm_compute; reflexivity)) as [_ H].
  apply (H (list_to_map [("error", JInt 400)]) (JInt 400)).
  - reflexivity.
  - vm_compute. reflexivity.
  - intros s. discriminate.
Defined.

(** ** The episode resolver *)

Definition broken_url : string := "https://roosterteeth.com/episode/broken".
Definition listed_url : string := "https://roosterteeth.com/episode/listed".

Lemma malformed_manifest_witness :
  episode_extract broken_url w0 =
    (inl IndexError, after_request server w0 (manifest_request "broken")) /\
  (IndexError = TypeError \/ IndexError = IndexError \/
   exists k, IndexError = KeyError k).
Proof.
  apply (malformed_manifest_raises server json_loads _match_id string
           _extract_m3u8_formats _sort_formats compat_str broken_url w0
           (obj [("data", JArr [])]) IndexError);
    vm_compute; reflexivity.
Defined.

Lemma forbidden_list_witness :
  episode_extract listed_url w0 =
    (inl AttributeError, after_request server w0 (manifest_request "listed")).
Proof.
  apply (forbidden_body_not_object server json_loads _match_id string
           _extract_m3u8_formats _sort_formats compat_str listed_url w0
           "HTTP Error 403: Forbidden" body_list (JArr [JStr "denied"])).
  - vm_compute. reflexivity.
  - vm_compute. reflexivity.
  - intros m. discriminate.
Defined.

Lemma thumbnails_well_formed_witness :
  Forall well_formed_thumbnail (RoosterTeethIE.thumbnails Examples.untitled_record) /\
  exists formats episode images,
    RoosterTeethIE.download_episode (Sample.server auth_ok) Sample.json_loads string
      _extract_m3u8_formats _sort_formats
      (_match_id RoosterTeethIE._VALID_URL Examples.untitled_url) w0 =
      (inr (formats, episode), Examples.untitled_world) /\
    episode_images episode = inr images /\
    (length (RoosterTeethIE.thumbnails Examples.untitled_record) <=
     4 * length (List.filter is_episode_image images))%nat.
Proof.
  apply (thumbnails_well_formed (Sample.server auth_ok) Sample.json_loads _match_id
           string _extract_m3u8_formats _sort_formats compat_str
           Examples.untitled_url w0 Examples.untitled_world Examples.untitled_record).
  vm_compute. reflexivity.
Defined.

(** An episode whose [included] is null. *)
Definition titled : gmap string json := list_to_map [("title", JStr "T")].

Definition null_included : gmap string json :=
  list_to_map [("id", JInt 7); ("attributes", JObj titled); ("included", JNull)].

Lemma included_null_witness :
  RoosterTeethIE.episode_info string compat_str "ep" ["hls-720"] (JObj null_included) =
  inl AttributeError.
Proof.
  destruct (included_missing_or_null string compat_str "ep" ["hls-720"]
              null_included titled (JInt 7)
              ltac:(vm_compute; reflexivity) ltac:(vm_compute; reflexivity)
              ltac:(vm_compute; reflexivity)) as (_ & _ & H & _).
  apply H. vm_compute. reflexivity.
Defined.

(** ** The series resolver *)

Lemma walk_requests_witness :
  exists k,
    0 <= k <= Z.of_nat 5 /\
    log (season_walk 5 (api +:+ s1_link) (JStr "s1") (Some 1) w0).2 =
      log w0 ++ (page_request (api +:+ s1_link) "s1" <$> seqZ 1 k) /\
    (forall es, (season_walk 5 (api +:+ s1_link) (JStr "s1") (Some 1) w0).1 = inr es ->
       1 <= k).
Proof.
  exact (walk_requests_consecutive server urlparse parse_qs urlencode urlunparse
           5 (api +:+ s1_link) "s1" 1 w0).
Defined.

Definition s1_refs : list string :=
  ["https://roosterteeth.com/episode/a"; "https://roosterteeth.com/episode/b";
   "https://roosterteeth.com/episode/c"].

Lemma entries_on_domain_witness :
  Forall on_domain s1_refs.
Proof.
  apply (proj1 (entries_on_domain server _match_id urlparse parse_qs urlencode
                  urlunparse string (fun url => url))
           5%nat (api +:+ s1_link) (JStr "s1") None w0 s1_refs
           (season_walk 5 (api +:+ s1_link) (JStr "s1") None w0).2).
  vm_compute. reflexivity.
Defined.

Lemma s9_growing :
  growing_backend server urlparse parse_qs urlencode urlunparse
    (api +:+ s9_link) "s9" 1 (1 + Z.of_nat 2).
Proof.
  intros w p Hp. assert (p = 1 \/ p = 2) as [-> | ->] by lia.
  - exists (page 1 9 ["/episode/k"]), 9, ["/episode/k"].
    split; [vm_compute; reflexivity|]. split; [apply Examples.page_is_page|lia].
  - exists (page 2 9 ["/episode/l"]), 9, ["/episode/l"].
    split; [vm_compute; reflexivity|]. split; [apply Examples.page_is_page|lia].
Qed.

Lemma walk_exhausts_witness :
  season_walk 2 (api +:+ s9_link) (JStr "s9") (Some 1) w0 =
  (inl RecursionError,
   after_pages server urlparse parse_qs urlencode urlunparse (api +:+ s9_link) "s9"
     w0 (seqZ 1 (Z.of_nat 2))).
Proof.
  apply (walk_exhausts_recursion server urlparse parse_qs urlencode urlunparse
           (api +:+ s9_link) "s9" 2 1 w0).
  exact s9_growing.
Defined.

Definition unknown_url : string := "https://roosterteeth.com/series/unknown".
Definition halved_url : string := "https://roosterteeth.com/series/halved".

Lemma show_lookup_witness :
  series_extract 5 unknown_url w0 =
  (inl IndexError,
   after_request server w0
     (show_request (_match_id RoosterTeethSeriesIE._VALID_URL unknown_url))).
Proof.
  destruct (show_lookup_fails server _match_id urlparse parse_qs urlencode urlunparse
              string (fun url => url) 5 unknown_url w0) as (_ & H & _).
  apply (H (obj [("data", JArr [])])); vm_compute; reflexivity.
Defined.

(** The show "halved": its first season is served, its second is not. *)
Definition halved_show : result (json * list json) * world :=
  show_and_seasons server (_match_id RoosterTeethSeriesIE._VALID_URL halved_url) w0.

Definition halved_first : result (list string) * world :=
  for_eachM
    (RoosterTeethSeriesIE.season_entries server urlparse parse_qs urlencode
       urlunparse 5)
    [season "s1" s1_link] halved_show.2.

Definition halved_second : result (list string) * world :=
  RoosterTeethSeriesIE.season_entries server urlparse parse_qs urlencode urlunparse
    5 (season "sx" sx_link) halved_first.2.

Lemma season_failure_witness :
  halved_first.1 = inr s1_refs /\
  series_extract 5 halved_url w0 =
    (inl (ExtractorError "HTTP Error 404: Not Found" (Some (HTTPError 404 ""))),
     halved_second.2).
Proof.
  split; [vm_compute; reflexivity|].
  apply (season_failure_aborts server _match_id urlparse parse_qs urlencode
           urlunparse string (fun url => url) 5 halved_url w0
           halved_show.2 halved_first.2 halved_second.2
           (obj [("attributes", obj [("title", JStr "Halved")]);
                 ("links", obj [("seasons", JStr "/api/v1/shows/halved/seasons")])])
           (season "sx" sx_link) [season "s1" s1_link] [] s1_refs);
    vm_compute; reflexivity.
Defined.

Lemma page_missing_field_witness :
  season_walk 1 (api +:+ s7_link) (JStr "s7") (Some 1) w0 =
  (inl (KeyError "total_pages"),
   after_request server w0 (page_request (api +:+ s7_link) "s7" 1)).
Proof.
  destruct (page_missing_field server urlparse parse_qs urlencode urlunparse
              0 (api +:+ s7_link) "s7" 1 w0 page_without_total
              ltac:(vm_compute; reflexivity)) as (_ & _ & H).
  apply (H [] []); [vm_compute; reflexivity | vm_compute; reflexivity
                   | constructor | vm_compute; reflexivity].
Defined.

End MoreExamples.
